(** * EasyCNNBuilder: the blocks of [src/blocks/BasicBlocks.py]

    A shallow embedding of the five [nn.Module] classes of the file
    (ResidualBlock, DenseBlock, ConvBottleneck, InceptionBlock and
    SqueezeAndExciteBlock) together with the part of Python and of the
    tensor library they rely on:

    - Python integers are [Z]; [//] and [%] are [Z.div] and [Z.modulo]
      (both round towards minus infinity, as Python does);
    - exceptions are values of [exn], computations live in a state and
      error monad [M] over a heap of tensor objects;
    - names are resolved as Python resolves them: a name that a function
      neither receives nor assigns is looked up in the module's globals and
      then in the builtins;
    - a tensor is its size and a symbolic account of its contents (the
      graph of library operations that produced it), so that the numerical
      kernels of the library stay uninterpreted while shapes are computed. *)

From Stdlib Require Import ZArith List String Lia Bool.
From Stdlib Require QArith.QArith_base QArith.Qround.
From stdpp Require Import base numbers list strings option.

Local Open Scope Z_scope.

(** ** Python: exceptions and results *)

Inductive exn : Type :=
| NameError (name : string)
| AttributeError (obj attr : string)
| TypeError (msg : string)
| ZeroDivisionError
| SystemError (msg : string)
| TorchError (kind msg : string).

(** [TorchError] stands for every exception raised from inside the tensor
    library (its [RuntimeError], [ValueError] and [IndexError]); the other
    constructors are raised by the interpreter while it runs the code of
    the repository. *)
Definition raised_by_torch (e : exn) : bool :=
  match e with
  | TorchError _ _ => true
  | _ => false
  end.

Inductive result (A : Type) : Type :=
| Ok (a : A)
| Raise (e : exn).
Arguments Ok {A} a.
Arguments Raise {A} e.

Definition rbind {A B} (r : result A) (f : A -> result B) : result B :=
  match r with
  | Ok a => f a
  | Raise e => Raise e
  end.

Definition is_ok {A} (r : result A) : bool :=
  match r with
  | Ok _ => true
  | Raise _ => false
  end.

(** ** Python: integer arithmetic *)

(** [a // b] for a divisor that is a variable of the program. *)
Definition py_floordiv (a b : Z) : result Z :=
  if b =? 0 then Raise ZeroDivisionError else Ok (a / b).

(** Lines 26-30 of [ResidualBlock.__init__]. *)
Definition ResidualBlock_midle_channels (in_channels out_channels : Z) : Z :=
  let midle_channels := in_channels + out_channels in
  if midle_channels mod 2 =? 0
  then midle_channels / 2
  else midle_channels / 2 + 1.

(** Lines 75-79 of [DenseBlock.__init__]. *)
Definition DenseBlock_midle_channels (in_channels : Z) : Z :=
  let midle_channels := in_channels in
  if in_channels mod 2 =? 0
  then midle_channels / 2
  else midle_channels / 2 + 1.


(** ** Python: name resolution

    The module's global namespace once [BasicBlocks.py] has been imported:
    the three imports of lines 11-13 and the five classes. *)

Inductive pyval : Type :=
| PyModule (name : string)
| PyClass (name : string)
| PyBuiltin (name : string).

Definition module_globals : list (string * pyval) :=
  [ ("torch", PyModule "torch");
    ("nn", PyModule "torch.nn");
    ("F", PyModule "torch.nn.functional");
    ("ResidualBlock", PyClass "ResidualBlock");
    ("DenseBlock", PyClass "DenseBlock");
    ("ConvBottleneck", PyClass "ConvBottleneck");
    ("InceptionBlock", PyClass "InceptionBlock");
    ("SqueezeAndExciteBlock", PyClass "SqueezeAndExciteBlock") ]%string.

(** The names of the [builtins] module. *)
Definition builtins : list string :=
  [ "abs"; "all"; "any"; "ascii"; "bin"; "bool"; "breakpoint"; "bytearray";
    "bytes"; "callable"; "chr"; "classmethod"; "compile"; "complex";
    "delattr"; "dict"; "dir"; "divmod"; "enumerate"; "eval"; "exec";
    "filter"; "float"; "format"; "frozenset"; "getattr"; "globals";
    "hasattr"; "hash"; "help"; "hex"; "id"; "input"; "int"; "isinstance";
    "issubclass"; "iter"; "len"; "list"; "locals"; "map"; "max";
    "memoryview"; "min"; "next"; "object"; "oct"; "open"; "ord"; "pow";
    "print"; "property"; "range"; "repr"; "reversed"; "round"; "set";
    "setattr"; "slice"; "sorted"; "staticmethod"; "str"; "sum"; "super";
    "tuple"; "type"; "vars"; "zip"; "__import__"; "True"; "False"; "None";
    "Exception"; "NameError"; "TypeError"; "ValueError"; "RuntimeError";
    "AttributeError"; "ZeroDivisionError" ]%string.

Fixpoint assoc {V} (k : string) (l : list (string * V)) : option V :=
  match l with
  | [] => None
  | (k', v) :: l' => if String.eqb k k' then Some v else assoc k l'
  end.

(** Reading a name that is not a local of the running function. *)
Definition lookup_global (name : string) : result pyval :=
  match assoc name module_globals with
  | Some v => Ok v
  | None =>
      if existsb (String.eqb name) builtins
      then Ok (PyBuiltin name)
      else Raise (NameError name)
  end.

(** Truth value of an object used as a condition: modules, classes and
    builtin functions are all true. *)
Definition truthy (v : pyval) : bool := true.

(** The classes that the source reaches through [nn.]: the attributes of
    [torch.nn] (spelled as the library spells them). *)
Inductive nn_class : Type :=
| C_Module | C_ModuleList | C_Sequential
| C_Conv2d | C_BatchNorm2d | C_ReLU | C_Linear
| C_MaxPool2d | C_AvgPool2d | C_AdaptiveAvgPool2d
| C_Sigmoid | C_Dropout | C_Flatten | C_Identity.

Definition torch_nn : list (string * nn_class) :=
  [ ("Module", C_Module); ("ModuleList", C_ModuleList);
    ("Sequential", C_Sequential); ("Conv2d", C_Conv2d);
    ("BatchNorm2d", C_BatchNorm2d); ("ReLU", C_ReLU);
    ("Linear", C_Linear); ("MaxPool2d", C_MaxPool2d);
    ("AvgPool2d", C_AvgPool2d); ("AdaptiveAvgPool2d", C_AdaptiveAvgPool2d);
    ("Sigmoid", C_Sigmoid); ("Dropout", C_Dropout);
    ("Flatten", C_Flatten); ("Identity", C_Identity) ]%string.

(** [nn.<name>] *)
Definition nn_attr (name : string) : result nn_class :=
  match assoc name torch_nn with
  | Some c => Ok c
  | None => Raise (AttributeError "torch.nn" name)
  end.

(** ** Tensors

    The contents of a tensor are kept symbolic: [term] records which
    library operation produced them from which operands. *)

Inductive prim : Type :=
| conv2d (stride padding dilation groups : Z)
| batch_norm (training : bool)
| running_stat (momentum_num momentum_den : Z)
| relu
| sigmoid
| max_pool2d (kernel_size stride padding : Z)
| adaptive_avg_pool2d (out_h out_w : Z)
| linear
| view (shape : list Z)
| cat (dim : nat)
| mul
| add.

#[warnings="-register-all"]
Inductive term : Type :=
| Var (name : string)
| Rand (cell : nat)
| Fill (c : Z)
| App (f : prim) (args : list term).

Record tensor : Type := Tensor { size : list Z; data : term }.

Definition numel (s : list Z) : Z := fold_right Z.mul 1 s.

(** ** The tensor library: what each operation accepts and returns

    The functions below give, for every library operation the blocks
    call, the checks the library performs on the sizes of its operands and
    the size of the tensor it returns (the shape rules of the library's
    documentation).  A rejected call raises a [TorchError]. *)

Definition runtime_error (msg : string) : exn := TorchError "RuntimeError" msg.
Definition value_error (msg : string) : exn := TorchError "ValueError" msg.
Definition index_error (msg : string) : exn := TorchError "IndexError" msg.

Definition guard (b : bool) (e : exn) : result unit :=
  if b then Ok tt else Raise e.

Notation "'ensure' b 'else' e ; k" := (rbind (guard b e) (fun _ => k))
  (at level 10, b at level 200, e at level 200, k at level 200).
Notation "'let?' x := r 'in' k" := (rbind r (fun x => k))
  (at level 10, x name, r at level 200, k at level 200).

Fixpoint sizes_eqb (a b : list Z) : bool :=
  match a, b with
  | [], [] => true
  | x :: a', y :: b' => (x =? y) && sizes_eqb a' b'
  | _, _ => false
  end.

(** Length of the output of a sliding window along one dimension. *)
Definition window_out (len kernel stride padding dilation : Z) : Z :=
  (len + 2 * padding - dilation * (kernel - 1) - 1) / stride + 1.

(** The padded input must cover the dilated kernel. *)
Definition kernel_fits (len kernel padding dilation : Z) : bool :=
  dilation * (kernel - 1) + 1 <=? len + 2 * padding.

(** [F.conv2d(input, weight, bias, stride, padding, dilation, groups)] *)
Definition conv2d_fn (stride padding dilation groups : Z)
    (input weight bias : tensor) : result tensor :=
  match size weight with
  | [co; ci; kh; kw] =>
      let out_data :=
        App (conv2d stride padding dilation groups)
            [data input; data weight; data bias] in
      ensure (0 <=? padding)
        else runtime_error "negative padding is not supported";
      ensure (0 <? stride)
        else runtime_error "non-positive stride is not supported";
      ensure (0 <? dilation)
        else runtime_error "dilation should be greater than zero";
      ensure (0 <? groups)
        else runtime_error "non-positive groups is not supported";
      ensure (groups <=? co)
        else runtime_error "expected weight to be at least groups at dimension 0";
      ensure (co mod groups =? 0)
        else runtime_error "expected weight to be divisible by groups at dimension 0";
      ensure (sizes_eqb (size bias) [co])
        else runtime_error "expected bias to be 1-dimensional with one element per output channel";
      match size input with
      | [n; c; h; w] =>
          ensure (c =? ci * groups)
            else runtime_error "input has the wrong number of channels";
          ensure (kernel_fits h kh padding dilation
                  && kernel_fits w kw padding dilation)
            else runtime_error "Kernel size can't be greater than actual input size";
          Ok (Tensor [n; co; window_out h kh stride padding dilation;
                      window_out w kw stride padding dilation] out_data)
      | [c; h; w] =>
          ensure (c =? ci * groups)
            else runtime_error "input has the wrong number of channels";
          ensure (kernel_fits h kh padding dilation
                  && kernel_fits w kw padding dilation)
            else runtime_error "Kernel size can't be greater than actual input size";
          Ok (Tensor [co; window_out h kh stride padding dilation;
                      window_out w kw stride padding dilation] out_data)
      | _ => Raise (runtime_error
               "Expected 3D (unbatched) or 4D (batched) input to conv2d")
      end
  | _ => Raise (runtime_error "expected a 4-dimensional weight")
  end.

(** [F.max_pool2d(input, kernel_size, stride, padding)] *)
Definition max_pool2d_fn (kernel_size stride padding : Z)
    (input : tensor) : result tensor :=
  let out_data := App (max_pool2d kernel_size stride padding) [data input] in
  ensure (0 <? kernel_size)
    else runtime_error "kernel size should be greater than zero";
  ensure (0 <? stride)
    else runtime_error "stride should be greater than zero";
  ensure ((0 <=? padding) && (2 * padding <=? kernel_size))
    else runtime_error "pad should be at most half of effective kernel size";
  match size input with
  | [n; c; h; w] =>
      let oh := window_out h kernel_size stride padding 1 in
      let ow := window_out w kernel_size stride padding 1 in
      ensure ((0 <? c) && (0 <? h) && (0 <? w))
        else runtime_error "Expected 4D tensor with non-zero non-batch dimensions";
      ensure ((0 <? oh) && (0 <? ow))
        else runtime_error "Output size is too small";
      Ok (Tensor [n; c; oh; ow] out_data)
  | [c; h; w] =>
      let oh := window_out h kernel_size stride padding 1 in
      let ow := window_out w kernel_size stride padding 1 in
      ensure ((0 <? c) && (0 <? h) && (0 <? w))
        else runtime_error "Expected 3D tensor with non-zero dimensions";
      ensure ((0 <? oh) && (0 <? ow))
        else runtime_error "Output size is too small";
      Ok (Tensor [c; oh; ow] out_data)
  | _ => Raise (runtime_error "Expected 3D or 4D (batch mode) tensor")
  end.

(** [F.adaptive_avg_pool2d(input, (out_h, out_w))].  The Python wrapper
    wants an input of at least three dimensions.  For the output size
    (1, 1) the library takes the mean over the last two dimensions and
    keeps them with length 1, whatever the sizes of the input (an empty
    dimension included); for another output size it wants a 3-D or 4-D
    input whose last two dimensions are not empty. *)
Definition adaptive_avg_pool2d_fn (out_h out_w : Z)
    (input : tensor) : result tensor :=
  let out_data := App (adaptive_avg_pool2d out_h out_w) [data input] in
  match rev (size input) with
  | w :: h :: front =>
      ensure (negb (length front =? 0)%nat)
        else value_error "Input dimension should be at least 3";
      ensure ((0 <=? out_h) && (0 <=? out_w))
        else runtime_error "adaptive_avg_pool2d: elements of output_size must be greater than or equal to 0";
      if (out_h =? 1) && (out_w =? 1)
      then Ok (Tensor (rev front ++ [1; 1]) out_data)
      else
        ensure (length front <=? 2)%nat
          else runtime_error "adaptive_avg_pool2d(): Expected 3D or 4D tensor";
        ensure ((0 <? h) && (0 <? w))
          else runtime_error "adaptive_avg_pool2d(): Expected input to have non-zero size for non-batch dimensions";
        Ok (Tensor (rev front ++ [out_h; out_w]) out_data)
  | _ => Raise (value_error "Input dimension should be at least 3")
  end.

(** [F.relu(input)] and [F.sigmoid(input)] work element by element. *)
Definition relu_fn (input : tensor) : result tensor :=
  Ok (Tensor (size input) (App relu [data input])).

Definition sigmoid_fn (input : tensor) : result tensor :=
  Ok (Tensor (size input) (App sigmoid [data input])).

(** [F.linear(input, weight, bias)]: the last dimension of the input is
    replaced by the number of output features. *)
Definition linear_fn (input weight bias : tensor) : result tensor :=
  match size weight with
  | [out_features; in_features] =>
      ensure (sizes_eqb (size bias) [out_features])
        else runtime_error "bias has the wrong size";
      match rev (size input) with
      | last :: front =>
          ensure (last =? in_features)
            else runtime_error "mat1 and mat2 shapes cannot be multiplied";
          Ok (Tensor (rev front ++ [out_features])
                (App linear [data input; data weight; data bias]))
      | [] => Raise (runtime_error "both arguments to linear need to be at least 1D")
      end
  | _ => Raise (runtime_error "expected a 2-dimensional weight")
  end.

(** [input.size(d)] *)
Definition size_fn (d : nat) (input : tensor) : result Z :=
  match size input !! d with
  | Some n => Ok n
  | None => Raise (index_error "Dimension out of range")
  end.

(** [input.view(shape)]: at most one entry of [shape] is [-1] and stands
    for whatever makes the number of elements match; it cannot be told
    when the input and the product of the other entries are both 0. *)
Definition view_fn (shape : list Z) (input : tensor) : result tensor :=
  let n := numel (size input) in
  let known := List.filter (fun d => negb (d =? -1)) shape in
  let out_data := App (view shape) [data input] in
  ensure (forallb (fun d => -1 <=? d) shape)
    else runtime_error "invalid shape dimension";
  match (length shape - length known)%nat with
  | O =>
      ensure (numel shape =? n)
        else runtime_error "shape is invalid for input size";
      Ok (Tensor shape out_data)
  | S O =>
      let p := numel known in
      ensure ((n =? p) || ((0 <? p) && (n mod p =? 0)))
        else runtime_error "shape is invalid for input size";
      ensure (negb (p =? 0))
        else runtime_error "cannot reshape: the unspecified dimension size -1 is ambiguous";
      Ok (Tensor (map (fun d => if d =? -1 then n / p else d) shape) out_data)
  | _ => Raise (runtime_error "only one dimension can be inferred")
  end.

(** Broadcasting of two sizes, aligned on their last dimension. *)
Definition broadcast_dim (x y : Z) : option Z :=
  if x =? y then Some x
  else if y =? 1 then Some x
  else if x =? 1 then Some y
  else None.

Fixpoint broadcast_rev (a b : list Z) : option (list Z) :=
  match a, b with
  | [], _ => Some b
  | _, [] => Some a
  | x :: a', y :: b' =>
      match broadcast_dim x y, broadcast_rev a' b' with
      | Some d, Some r => Some (d :: r)
      | _, _ => None
      end
  end.

Definition broadcast (a b : list Z) : result (list Z) :=
  match broadcast_rev (rev a) (rev b) with
  | Some r => Ok (rev r)
  | None => Raise (runtime_error
              "The size of tensor a must match the size of tensor b")
  end.

(** [a * b] *)
Definition mul_fn (a b : tensor) : result tensor :=
  let? s := broadcast (size a) (size b) in
  Ok (Tensor s (App mul [data a; data b])).

(** [a += b]: the value written back into [a], whose size cannot change. *)
Definition iadd_fn (a b : tensor) : result tensor :=
  let? s := broadcast (size a) (size b) in
  ensure (sizes_eqb s (size a))
    else runtime_error "output with this shape doesn't match the broadcast shape";
  Ok (Tensor (size a) (App add [data a; data b])).

(** Size of the concatenation of two tensors along dimension [dim]. *)
Fixpoint cat_size (dim : nat) (a b : list Z) : option (list Z) :=
  match dim, a, b with
  | O, x :: a', y :: b' =>
      if sizes_eqb a' b' then Some ((x + y) :: a') else None
  | S dim', x :: a', y :: b' =>
      if x =? y then cons x <$> cat_size dim' a' b' else None
  | _, _, _ => None
  end.

Fixpoint cat_sizes (dim : nat) (acc : list Z) (rest : list tensor)
  : option (list Z) :=
  match rest with
  | [] => Some acc
  | t :: rest' =>
      match cat_size dim acc (size t) with
      | Some acc' => cat_sizes dim acc' rest'
      | None => None
      end
  end.

(** [torch.cat(tensors, dim)] *)
Definition cat_fn (dim : nat) (tensors : list tensor) : result tensor :=
  match tensors with
  | [] => Raise (runtime_error "torch.cat(): expected a non-empty list of Tensors")
  | t :: rest =>
      ensure (dim <? length (size t))%nat
        else index_error "Dimension out of range";
      match cat_sizes dim (size t) rest with
      | Some s => Ok (Tensor s (App (cat dim) (map data tensors)))
      | None => Raise (runtime_error
                  "Sizes of tensors must match except in the concatenation dimension")
      end
  end.

(** [torch.empty(size)], [torch.zeros(size)], [torch.ones(size)]. *)
Definition new_tensor (s : list Z) (contents : term) : result tensor :=
  ensure (forallb (fun d => 0 <=? d) s)
    else runtime_error "Trying to create tensor with negative dimension";
  Ok (Tensor s contents).

(** [F.batch_norm] on a 4-D batch: the normalised tensor.  In training
    mode the statistics come from the batch, otherwise from the running
    estimates. *)
Definition batch_norm_fn (training : bool)
    (input weight bias running_mean running_var : tensor) : result tensor :=
  match size input with
  | [n; c; h; w] =>
      ensure (sizes_eqb (size running_mean) [c])
        else runtime_error "running_mean should contain one element per channel";
      ensure (negb training || negb (n * h * w =? 1))
        else value_error "Expected more than 1 value per channel when training";
      Ok (Tensor (size input)
            (App (batch_norm training)
               (if training
                then [data input; data weight; data bias]
                else [data input; data weight; data bias;
                      data running_mean; data running_var])))
  | _ => Raise (value_error "expected 4D input")
  end.

(** The running estimate after a training step (momentum 1/10). *)
Definition running_stat_fn (stat input : tensor) : tensor :=
  Tensor (size stat) (App (running_stat 1 10) [data stat; data input]).

(** ** The heap and the monad of computations

    Every tensor object lives in a cell of the heap; an address is the
    index of its cell.  A computation receives the heap and returns a
    result or an exception together with the heap it leaves. *)

Abbreviation addr := nat (only parsing).
Abbreviation heap := (list tensor) (only parsing).

Definition M (A : Type) : Type := heap -> result A * heap.

Definition ret {A} (a : A) : M A := fun h => (Ok a, h).

Definition raise {A} (e : exn) : M A := fun h => (Raise e, h).

Definition bind {A B} (m : M A) (f : A -> M B) : M B :=
  fun h =>
    match m h with
    | (Ok a, h') => f a h'
    | (Raise e, h') => (Raise e, h')
    end.

Notation "x <- m ;; k" := (bind m (fun x => k))
  (at level 100, m at next level, right associativity).
Notation "m ;;; k" := (bind m (fun _ => k))
  (at level 100, right associativity).

Definition lift {A} (r : result A) : M A := fun h => (r, h).

(** A new tensor object. *)
Definition alloc (t : tensor) : M addr :=
  fun h => (Ok (length h), h ++ [t]).

(** The tensor behind a reference.  Python has no dangling references:
    the failure branch is only there to keep the model total. *)
Definition load (a : addr) : M tensor :=
  fun h =>
    match h !! a with
    | Some t => (Ok t, h)
    | None => (Raise (SystemError "dangling reference"), h)
    end.

(** Overwriting a tensor in place. *)
Definition store (a : addr) (t : tensor) : M unit :=
  fun h =>
    match h !! a with
    | Some _ => (Ok tt, <[a := t]> h)
    | None => (Raise (SystemError "dangling reference"), h)
    end.

(** What a caller observes of a call: the tensor returned, or the
    exception. *)
Definition outcome (p : result addr * heap) : result (option tensor) :=
  match p.1 with
  | Ok a => Ok (p.2 !! a)
  | Raise e => Raise e
  end.

(** An operation of the library on one, two or three tensors, or on a
    list of tensors: it reads its operands and returns a new tensor. *)
Definition op1 (f : tensor -> result tensor) (a : addr) : M addr :=
  x <- load a ;;
  r <- lift (f x) ;;
  alloc r.

Definition op2 (f : tensor -> tensor -> result tensor) (a b : addr) : M addr :=
  x <- load a ;;
  y <- load b ;;
  r <- lift (f x y) ;;
  alloc r.

Definition op3 (f : tensor -> tensor -> tensor -> result tensor)
    (a b c : addr) : M addr :=
  x <- load a ;;
  y <- load b ;;
  z <- load c ;;
  r <- lift (f x y z) ;;
  alloc r.

Fixpoint load_all (l : list addr) : M (list tensor) :=
  match l with
  | [] => ret []
  | a :: l' =>
      x <- load a ;;
      xs <- load_all l' ;;
      ret (x :: xs)
  end.

Definition opl (f : list tensor -> result tensor) (l : list addr) : M addr :=
  xs <- load_all l ;;
  r <- lift (f xs) ;;
  alloc r.

(** ** The calls the blocks make into the library *)

Definition F_relu : addr -> M addr := op1 relu_fn.
Definition F_sigmoid : addr -> M addr := op1 sigmoid_fn.
Definition F_max_pool2d (x : addr) (kernel_size stride padding : Z) : M addr :=
  op1 (max_pool2d_fn kernel_size stride padding) x.
Definition F_adaptive_avg_pool2d (x : addr) (out_h out_w : Z) : M addr :=
  op1 (adaptive_avg_pool2d_fn out_h out_w) x.
Definition torch_cat (tensors : list addr) (dim : nat) : M addr :=
  opl (cat_fn dim) tensors.
Definition tensor_view (x : addr) (shape : list Z) : M addr :=
  op1 (view_fn shape) x.
Definition tensor_size (x : addr) (d : nat) : M Z :=
  t <- load x ;;
  lift (size_fn d t).
Definition tensor_mul : addr -> addr -> M addr := op2 mul_fn.

(** [a += b] writes into the object [a] and leaves the name bound to it. *)
Definition tensor_iadd (a b : addr) : M addr :=
  x <- load a ;;
  y <- load b ;;
  r <- lift (iadd_fn x y) ;;
  store a r ;;;
  ret a.

(** [torch.empty(size)]: a new tensor whose contents are whatever the
    initialiser draws for this object. *)
Definition torch_empty (s : list Z) : M addr :=
  fun h => (t <- lift (new_tensor s (Rand (length h))) ;; alloc t) h.

(** [torch.zeros(size)], [torch.ones(size)], [torch.tensor(c)]. *)
Definition torch_full (s : list Z) (c : Z) : M addr :=
  t <- lift (new_tensor s (Fill c)) ;;
  alloc t.

(** ** Layers of [torch.nn] *)

Record Conv2d : Type := {
  conv_in_channels : Z;
  conv_out_channels : Z;
  conv_kernel_size : Z;
  conv_stride : Z;
  conv_padding : Z;
  conv_groups : Z;
  conv_weight : addr;
  conv_bias : addr
}.

Record BatchNorm2d : Type := {
  bn_num_features : Z;
  bn_training : bool;
  bn_weight : addr;
  bn_bias : addr;
  bn_running_mean : addr;
  bn_running_var : addr;
  bn_num_batches_tracked : addr
}.

Record Linear : Type := {
  lin_in_features : Z;
  lin_out_features : Z;
  lin_weight : addr;
  lin_bias : addr
}.

#[warnings="-register-all"]
Inductive layer : Type :=
| LConv2d (c : Conv2d)
| LBatchNorm2d (b : BatchNorm2d)
| LReLU
| LLinear (l : Linear)
| LSequential (items : list layer)
| LModuleList (items : list layer).

(** [nn.Conv2d.__init__]: the checks of the constructor, then the weight
    of size (out_channels, in_channels // groups, k, k) and the bias. *)
Definition Conv2d_new (in_channels out_channels kernel_size stride padding groups : Z)
  : M Conv2d :=
  lift (guard (0 <? groups)
          (value_error "groups must be a positive integer")) ;;;
  lift (guard (in_channels mod groups =? 0)
          (value_error "in_channels must be divisible by groups")) ;;;
  lift (guard (out_channels mod groups =? 0)
          (value_error "out_channels must be divisible by groups")) ;;;
  w <- torch_empty [out_channels; in_channels / groups; kernel_size; kernel_size] ;;
  b <- torch_empty [out_channels] ;;
  ret {| conv_in_channels := in_channels; conv_out_channels := out_channels;
         conv_kernel_size := kernel_size; conv_stride := stride;
         conv_padding := padding; conv_groups := groups;
         conv_weight := w; conv_bias := b |}.

(** [nn.BatchNorm2d.__init__]: a module starts in training mode. *)
Definition BatchNorm2d_new (num_features : Z) : M BatchNorm2d :=
  w <- torch_full [num_features] 1 ;;
  b <- torch_full [num_features] 0 ;;
  rm <- torch_full [num_features] 0 ;;
  rv <- torch_full [num_features] 1 ;;
  nbt <- torch_full [] 0 ;;
  ret {| bn_num_features := num_features; bn_training := true;
         bn_weight := w; bn_bias := b;
         bn_running_mean := rm; bn_running_var := rv;
         bn_num_batches_tracked := nbt |}.

(** [nn.Linear.__init__] *)
Definition Linear_new (in_features out_features : Z) : M Linear :=
  w <- torch_empty [out_features; in_features] ;;
  b <- torch_empty [out_features] ;;
  ret {| lin_in_features := in_features; lin_out_features := out_features;
         lin_weight := w; lin_bias := b |}.

(** Calling a class of [torch.nn]; the arguments are listed in the order
    of the constructor's parameters (for [Conv2d]: in_channels,
    out_channels, kernel_size, stride, padding, groups). *)
Definition nn_call (cls : nn_class) (args : list Z) : M layer :=
  match cls, args with
  | C_Conv2d, [i; o; k; s; p; g] =>
      c <- Conv2d_new i o k s p g ;; ret (LConv2d c)
  | C_BatchNorm2d, [n] =>
      b <- BatchNorm2d_new n ;; ret (LBatchNorm2d b)
  | C_Linear, [i; o] =>
      l <- Linear_new i o ;; ret (LLinear l)
  | C_ReLU, [] => ret LReLU
  | C_Sequential, [] => ret (LSequential [])
  | C_ModuleList, [] => ret (LModuleList [])
  | _, _ => raise (TypeError "wrong arguments for the constructor")
  end.

(** [nn.<name>(args)] *)
Definition nn_new (name : string) (args : list Z) : M layer :=
  cls <- lift (nn_attr name) ;;
  nn_call cls args.

(** [conv_layers.append(module)] *)
Definition append (conv_layers module : layer) : M layer :=
  match conv_layers with
  | LModuleList items => ret (LModuleList (items ++ [module]))
  | _ => raise (AttributeError "Module" "append")
  end.

(** [nn.<name>(args)] when the arguments are expressions that can raise:
    the callee is evaluated first, then the arguments, then the call. *)
Definition nn_new_with (name : string) (args : M (list Z)) : M layer :=
  cls <- lift (nn_attr name) ;;
  a <- args ;;
  nn_call cls a.

(** [conv_layers.append(nn.<name>(args))] *)
Definition append_new (conv_layers : layer) (name : string) (args : list Z)
  : M layer :=
  module <- nn_new name args ;;
  append conv_layers module.

(** [nn.Sequential( *conv_layers )] *)
Definition nn_Sequential (conv_layers : layer) : M layer :=
  lift (nn_attr "Sequential") ;;;
  match conv_layers with
  | LModuleList items | LSequential items => ret (LSequential items)
  | _ => raise (TypeError "argument after * must be an iterable")
  end.

(** [nn.BatchNorm2d.forward]: in training mode the call counts the batch
    and moves the running estimates, in place. *)
Definition BatchNorm2d_forward (b : BatchNorm2d) (x : addr) : M addr :=
  input <- load x ;;
  lift (guard (length (size input) =? 4)%nat (value_error "expected 4D input")) ;;;
  (if bn_training b
   then n <- load (bn_num_batches_tracked b) ;;
        store (bn_num_batches_tracked b)
          (Tensor (size n) (App add [data n; Fill 1]))
   else ret tt) ;;;
  w <- load (bn_weight b) ;;
  bias <- load (bn_bias b) ;;
  rm <- load (bn_running_mean b) ;;
  rv <- load (bn_running_var b) ;;
  r <- lift (batch_norm_fn (bn_training b) input w bias rm rv) ;;
  (if bn_training b
   then store (bn_running_mean b) (running_stat_fn rm input) ;;;
        store (bn_running_var b) (running_stat_fn rv input)
   else ret tt) ;;;
  alloc r.

(** [module(x)] *)
Fixpoint call_layer (l : layer) (x : addr) {struct l} : M addr :=
  match l with
  | LConv2d c =>
      op3 (conv2d_fn (conv_stride c) (conv_padding c) 1 (conv_groups c))
          x (conv_weight c) (conv_bias c)
  | LBatchNorm2d b => BatchNorm2d_forward b x
  | LReLU => F_relu x
  | LLinear l => op3 linear_fn x (lin_weight l) (lin_bias l)
  | LSequential items =>
      (fix run (items : list layer) (x : addr) : M addr :=
         match items with
         | [] => ret x
         | l :: items' => y <- call_layer l x ;; run items' y
         end) items x
  | LModuleList _ =>
      raise (TorchError "NotImplementedError"
               "Module is missing the required forward function")
  end.

(** [super(<name>, self).__init__()] inside a class [self_class] that
    derives from [nn.Module] only. *)
Definition super_init (self_class name : string) : M unit :=
  lift (lookup_global "super") ;;;
  cls <- lift (lookup_global name) ;;
  match cls with
  | PyClass c =>
      if String.eqb c self_class then ret tt
      else raise (TypeError
             "super(type, obj): obj must be an instance or subtype of type")
  | _ => raise (TypeError "super() argument 1 must be a type")
  end.

(** No object of the module's namespace is an integer. *)
Definition int_of (v : pyval) : result Z :=
  Raise (TorchError "TypeError" "expected an int").

(** ** The five blocks *)

Record ResidualBlock : Type := {
  mainbranch : layer;
  skip : layer
}.

Record DenseBlock : Type := {
  dense : layer;
  regularise : layer
}.

Record ConvBottleneck : Type := {
  conv_blocks : layer
}.

Record InceptionBlock : Type := {
  conv1x1_1 : layer;
  conv1x1_2 : layer;
  conv3x3 : layer;
  conv1x1_3 : layer;
  conv5x5 : layer;
  conv1x1_4 : layer
}.

Record SqueezeAndExciteBlock : Type := {
  fully_connected_1 : layer;
  fully_connected_2 : layer
}.

(** [ResidualBlock.__init__(self, in_channels, out_channels,
    depth_wise=True, bottleneck=False)], lines 24-55.  The locals of the
    function are its parameters, [midle_channels], [current] and
    [conv_layers]; [depthwise] is not one of them. *)
Definition ResidualBlock_init (in_channels out_channels : Z)
    (depth_wise bottleneck : bool) : M ResidualBlock :=
  super_init "ResidualBlock" "ResidualBlock" ;;;
  let midle_channels := ResidualBlock_midle_channels in_channels out_channels in
  let current := in_channels in
  conv_layers <- nn_new "ModuleList" [] ;;
  st <- (if bottleneck
         then
           conv_layers <- append_new conv_layers "Conv2d"
                            [in_channels; midle_channels; 1; 1; 0; 1] ;;
           conv_layers <- append_new conv_layers "BatchNorm2d" [midle_channels] ;;
           conv_layers <- append_new conv_layers "ReLu" [] ;;
           ret (conv_layers, midle_channels)
         else ret (conv_layers, current)) ;;
  let conv_layers := st.1 in
  let current := st.2 in
  depthwise <- lift (lookup_global "depthwise") ;;
  conv_layers <- (if truthy depthwise
                  then
                    conv_layers <- append_new conv_layers "Conv2d"
                                     [current; current; 3; 1; 1; current] ;;
                    append_new conv_layers "Conv2d"
                      [current; out_channels; 1; 1; 0; 1]
                  else
                    append_new conv_layers "Conv2d"
                      [current; out_channels; 3; 1; 1; 1]) ;;
  conv_layers <- append_new conv_layers "BatchNorm2d" [out_channels] ;;
  conv_layers <- append_new conv_layers "ReLu" [] ;;
  conv_layers <- append_new conv_layers "Conv2d"
                   [out_channels; out_channels; 1; 1; 0; 1] ;;
  conv_layers <- append_new conv_layers "BatchNorm2d" [out_channels] ;;
  mainbranch <- nn_Sequential conv_layers ;;
  skip <- nn_new "Sequential" [] ;;
  skip <- (if negb (in_channels =? out_channels)
           then nn_new "Conv2d" [in_channels; out_channels; 1; 1; 0; 1]
           else ret skip) ;;
  ret {| mainbranch := mainbranch; skip := skip |}.

(** [ResidualBlock.forward], lines 57-61. *)
Definition ResidualBlock_forward (self : ResidualBlock) (x : addr) : M addr :=
  output <- call_layer (mainbranch self) x ;;
  s <- call_layer (skip self) x ;;
  output <- tensor_iadd output s ;;
  F_relu output.

(** [DenseBlock.__init__(self, in_channels, depth_wise=True,
    bottleneck=False)], lines 73-104.  Neither [depthwise] nor
    [out_channels] is a local of the function. *)
Definition DenseBlock_init (in_channels : Z) (depth_wise bottleneck : bool)
  : M DenseBlock :=
  super_init "DenseBlock" "DenseBlock" ;;;
  let midle_channels := DenseBlock_midle_channels in_channels in
  let current := in_channels in
  conv_layers <- nn_new "ModuleList" [] ;;
  st <- (if bottleneck
         then
           conv_layers <- append_new conv_layers "Conv2d"
                            [in_channels; midle_channels; 1; 1; 0; 1] ;;
           conv_layers <- append_new conv_layers "BatchNorm2d" [midle_channels] ;;
           conv_layers <- append_new conv_layers "ReLu" [] ;;
           ret (conv_layers, midle_channels)
         else ret (conv_layers, current)) ;;
  let conv_layers := st.1 in
  let current := st.2 in
  depthwise <- lift (lookup_global "depthwise") ;;
  conv_layers <- (if truthy depthwise
                  then
                    conv_layers <- append_new conv_layers "Conv2d"
                                     [current; current; 3; 1; 1; current] ;;
                    append_new conv_layers "Conv2d"
                      [current; in_channels; 1; 1; 0; 1]
                  else
                    append_new conv_layers "Conv2d"
                      [current; in_channels; 3; 1; 1; 1]) ;;
  module <- nn_new_with "BatchNorm2d"
              (out_channels <- lift (lookup_global "out_channels") ;;
               n <- lift (int_of out_channels) ;;
               ret [n]) ;;
  conv_layers <- append conv_layers module ;;
  conv_layers <- append_new conv_layers "ReLu" [] ;;
  dense <- nn_Sequential conv_layers ;;
  lift (nn_attr "Sequential") ;;;
  r1 <- nn_new "Conv2d" [in_channels * 2; in_channels * 2; 1; 1; 0; 1] ;;
  r2 <- nn_new_with "BatchNorm2d"
          (inner <- nn_new_with "BatchNorm2d"
                      (out_channels <- lift (lookup_global "out_channels") ;;
                       n <- lift (int_of out_channels) ;;
                       ret [n]) ;;
           raise (TypeError
             "unsupported operand type(s) for *: 'BatchNorm2d' and 'int'")) ;;
  r3 <- nn_new "ReLu" [] ;;
  ret {| dense := dense; regularise := LSequential [r1; r2; r3] |}.

(** [DenseBlock.forward], lines 106-112. *)
Definition DenseBlock_forward (self : DenseBlock) (x : addr) : M addr :=
  output <- call_layer (dense self) x ;;
  output <- torch_cat [x; output] 1 ;;
  output <- call_layer (regularise self) output ;;
  ret output.

(** [ConvBottleneck.__init__] after its first statement, lines 123-139. *)
Definition ConvBottleneck_init_body (in_channels downsample : Z)
    (depth_wise : bool) : M ConvBottleneck :=
  conv_layers <- nn_new "ModuleList" [] ;;
  median_channels <- lift (py_floordiv in_channels downsample) ;;
  conv_layers <- append_new conv_layers "Conv2d"
                   [in_channels; median_channels; 1; 1; 0; 1] ;;
  conv_layers <- append_new conv_layers "BatchNorm2d" [median_channels] ;;
  conv_layers <- append_new conv_layers "ReLu" [] ;;
  conv_layers <- (if depth_wise
                  then
                    conv_layers <- append_new conv_layers "Conv2d"
                                     [median_channels; median_channels; 3; 1; 1;
                                      median_channels] ;;
                    append_new conv_layers "Conv2d"
                      [median_channels; median_channels; 1; 1; 0; 1]
                  else
                    raise (TypeError
                      "append() got an unexpected keyword argument 'in_channels'")) ;;
  conv_layers <- append_new conv_layers "BatchNorm2d" [median_channels] ;;
  conv_layers <- append_new conv_layers "ReLu" [] ;;
  conv_layers <- append_new conv_layers "Conv2d"
                   [median_channels; in_channels; 1; 1; 0; 1] ;;
  conv_layers <- append_new conv_layers "BatchNorm2d" [in_channels] ;;
  conv_layers <- append_new conv_layers "ReLu" [] ;;
  conv_blocks <- nn_Sequential conv_layers ;;
  ret {| conv_blocks := conv_blocks |}.

(** [ConvBottleneck.__init__(self, in_channels, downsample,
    depth_wise=False)], lines 121-139: line 122 names the class
    [BottleneckBlock]. *)
Definition ConvBottleneck_init (in_channels downsample : Z) (depth_wise : bool)
  : M ConvBottleneck :=
  super_init "ConvBottleneck" "BottleneckBlock" ;;;
  ConvBottleneck_init_body in_channels downsample depth_wise.

(** [ConvBottleneck.forward], lines 140-144. *)
Definition ConvBottleneck_forward (self : ConvBottleneck) (x : addr) : M addr :=
  output <- call_layer (conv_blocks self) x ;;
  ret output.

(** [InceptionBlock.__init__(self, in_channels)], lines 153-165. *)
Definition InceptionBlock_init (in_channels : Z) : M InceptionBlock :=
  super_init "InceptionBlock" "InceptionBlock" ;;;
  conv1x1_1 <- nn_new "Conv2d" [in_channels; in_channels / 2; 1; 1; 0; 1] ;;
  let out_1 := in_channels / 4 in
  conv1x1_2 <- nn_new "Conv2d" [in_channels; out_1; 1; 1; 0; 1] ;;
  conv3x3 <- nn_new "Conv2d" [out_1; 3 * out_1; 3; 1; 1; 1] ;;
  conv1x1_3 <- nn_new "Conv2d" [in_channels; out_1; 1; 1; 0; 1] ;;
  conv5x5 <- nn_new "Conv2d" [out_1; (3 * out_1) / 2; 1; 1; 0; 1] ;;
  conv1x1_4 <- nn_new "Conv2d" [in_channels; out_1; 1; 1; 0; 1] ;;
  ret {| conv1x1_1 := conv1x1_1; conv1x1_2 := conv1x1_2; conv3x3 := conv3x3;
         conv1x1_3 := conv1x1_3; conv5x5 := conv5x5; conv1x1_4 := conv1x1_4 |}.

(** [InceptionBlock.forward], lines 167-179. *)
Definition InceptionBlock_forward (self : InceptionBlock) (x : addr) : M addr :=
  t <- call_layer (conv1x1_1 self) x ;;
  branch_1 <- F_relu t ;;
  t <- call_layer (conv1x1_2 self) x ;;
  t <- F_relu t ;;
  t <- call_layer (conv3x3 self) t ;;
  branch_2 <- F_relu t ;;
  t <- call_layer (conv1x1_3 self) x ;;
  t <- F_relu t ;;
  t <- call_layer (conv5x5 self) t ;;
  branch_3 <- F_relu t ;;
  t <- F_max_pool2d x 3 1 1 ;;
  t <- call_layer (conv1x1_4 self) t ;;
  branch_4 <- F_relu t ;;
  output <- torch_cat [branch_1; branch_2; branch_3; branch_4] 1 ;;
  ret output.

(** [SqueezeAndExciteBlock.__init__(self, in_channels, downsample)],
    lines 189-193. *)
Definition SqueezeAndExciteBlock_init (in_channels downsample : Z)
  : M SqueezeAndExciteBlock :=
  super_init "SqueezeAndExciteBlock" "SqueezeAndExciteBlock" ;;;
  median_channels <- lift (py_floordiv in_channels downsample) ;;
  fully_connected_1 <- nn_new "Linear" [in_channels; median_channels] ;;
  fully_connected_2 <- nn_new "Linear" [median_channels; in_channels] ;;
  ret {| fully_connected_1 := fully_connected_1;
         fully_connected_2 := fully_connected_2 |}.

(** [SqueezeAndExciteBlock.forward], lines 195-206. *)
Definition SqueezeAndExciteBlock_forward (self : SqueezeAndExciteBlock)
    (x : addr) : M addr :=
  output <- F_adaptive_avg_pool2d x 1 1 ;;
  n <- tensor_size output 0 ;;
  output <- tensor_view output [n; -1] ;;
  t <- call_layer (fully_connected_1 self) output ;;
  output <- F_relu t ;;
  output <- call_layer (fully_connected_2 self) output ;;
  output <- F_sigmoid output ;;
  n <- tensor_size output 0 ;;
  output <- tensor_view output [n; -1; 1; 1] ;;
  output <- tensor_mul x output ;;
  output <- torch_cat [x; output] 1 ;;
  ret output.

(** ** The module call convention: construct, then call *)

Inductive ctor : Type :=
| New_ResidualBlock (in_channels out_channels : Z) (depth_wise bottleneck : bool)
| New_DenseBlock (in_channels : Z) (depth_wise bottleneck : bool)
| New_ConvBottleneck (in_channels downsample : Z) (depth_wise : bool)
| New_InceptionBlock (in_channels : Z)
| New_SqueezeAndExciteBlock (in_channels downsample : Z).

Inductive block : Type :=
| B_Residual (m : ResidualBlock)
| B_Dense (m : DenseBlock)
| B_Bottleneck (m : ConvBottleneck)
| B_Inception (m : InceptionBlock)
| B_SqueezeAndExcite (m : SqueezeAndExciteBlock).

Definition construct (c : ctor) : M block :=
  match c with
  | New_ResidualBlock i o d b =>
      m <- ResidualBlock_init i o d b ;; ret (B_Residual m)
  | New_DenseBlock i d b =>
      m <- DenseBlock_init i d b ;; ret (B_Dense m)
  | New_ConvBottleneck i s d =>
      m <- ConvBottleneck_init i s d ;; ret (B_Bottleneck m)
  | New_InceptionBlock i =>
      m <- InceptionBlock_init i ;; ret (B_Inception m)
  | New_SqueezeAndExciteBlock i s =>
      m <- SqueezeAndExciteBlock_init i s ;; ret (B_SqueezeAndExcite m)
  end.

Definition forward (b : block) (x : addr) : M addr :=
  match b with
  | B_Residual m => ResidualBlock_forward m x
  | B_Dense m => DenseBlock_forward m x
  | B_Bottleneck m => ConvBottleneck_forward m x
  | B_Inception m => InceptionBlock_forward m x
  | B_SqueezeAndExcite m => SqueezeAndExciteBlock_forward m x
  end.

(** [cls(args)(x)]: build the module and call it once. *)
Definition build_and_call (c : ctor) (x : addr) : M addr :=
  m <- construct c ;;
  forward m x.

(** ** What the blocks are meant to compute, on tensor values

    The value a layer returns for an input value, given the parameters
    found in heap [h].  Only the layers without state of their own have
    such a value. *)
Definition layer_fn (h : heap) (l : layer) (x : tensor) : result tensor :=
  match l with
  | LConv2d c =>
      match h !! conv_weight c, h !! conv_bias c with
      | Some w, Some b =>
          conv2d_fn (conv_stride c) (conv_padding c) 1 (conv_groups c) x w b
      | _, _ => Raise (SystemError "dangling reference")
      end
  | LLinear l =>
      match h !! lin_weight l, h !! lin_bias l with
      | Some w, Some b => linear_fn x w b
      | _, _ => Raise (SystemError "dangling reference")
      end
  | LReLU => relu_fn x
  | _ => Raise (SystemError "not a function of the input alone")
  end.

(** The four branches of the inception block and their concatenation. *)
Definition Inception_branch_1 (h : heap) (self : InceptionBlock) (x : tensor)
  : result tensor :=
  let? t := layer_fn h (conv1x1_1 self) x in
  relu_fn t.

Definition Inception_branch_2 (h : heap) (self : InceptionBlock) (x : tensor)
  : result tensor :=
  let? t := layer_fn h (conv1x1_2 self) x in
  let? t := relu_fn t in
  let? t := layer_fn h (conv3x3 self) t in
  relu_fn t.

Definition Inception_branch_3 (h : heap) (self : InceptionBlock) (x : tensor)
  : result tensor :=
  let? t := layer_fn h (conv1x1_3 self) x in
  let? t := relu_fn t in
  let? t := layer_fn h (conv5x5 self) t in
  relu_fn t.

Definition Inception_branch_4 (h : heap) (self : InceptionBlock) (x : tensor)
  : result tensor :=
  let? t := max_pool2d_fn 3 1 1 x in
  let? t := layer_fn h (conv1x1_4 self) t in
  relu_fn t.

Definition Inception_spec (h : heap) (self : InceptionBlock) (x : tensor)
  : result tensor :=
  let? b1 := Inception_branch_1 h self x in
  let? b2 := Inception_branch_2 h self x in
  let? b3 := Inception_branch_3 h self x in
  let? b4 := Inception_branch_4 h self x in
  cat_fn 1 [b1; b2; b3; b4].

(** Squeeze and excitation: global average pooling to one number per
    sample and channel, the gate sigmoid(fc2(relu(fc1(.)))), the input
    scaled by its gate channel by channel, and the concatenation of the
    input with the scaled input. *)
Definition global_avg_pool (x : tensor) : result tensor :=
  let? p := adaptive_avg_pool2d_fn 1 1 x in
  let? n := size_fn 0 p in
  view_fn [n; -1] p.

Definition excitation (h : heap) (self : SqueezeAndExciteBlock) (s : tensor)
  : result tensor :=
  let? t := layer_fn h (fully_connected_1 self) s in
  let? t := relu_fn t in
  let? t := layer_fn h (fully_connected_2 self) t in
  sigmoid_fn t.

Definition scale_channels (x gate : tensor) : result tensor :=
  let? n := size_fn 0 gate in
  let? g := view_fn [n; -1; 1; 1] gate in
  mul_fn x g.

Definition SqueezeAndExcite_spec (h : heap) (self : SqueezeAndExciteBlock)
    (x : tensor) : result tensor :=
  let? s := global_avg_pool x in
  let? gate := excitation h self s in
  let? y := scale_channels x gate in
  cat_fn 1 [x; y].

(** What a caller observes when the call computes [r]. *)
Definition observed (r : result tensor) : result (option tensor) :=
  let? t := r in Ok (Some t).

(** [runs m h r]: started in heap [h], the computation [m] only adds
    objects to the heap, and returns a tensor of value [r] (or raises as
    [r] does). *)
Definition runs (m : M addr) (h : heap) (r : result tensor) : Prop :=
  exists l, (m h).2 = h ++ l /\ outcome (m h) = observed r.

(** A layer whose parameters are alive in [h]. *)
Definition pure_layer (h : heap) (l : layer) : Prop :=
  match l with
  | LConv2d c => is_Some (h !! conv_weight c) /\ is_Some (h !! conv_bias c)
  | LLinear l => is_Some (h !! lin_weight l) /\ is_Some (h !! lin_bias l)
  | LReLU => True
  | _ => False
  end.

(** A convolution layer with ungrouped kernels of the given geometry. *)
Definition is_conv (h : heap) (l : layer) (co ci k s p : Z) : Prop :=
  exists c wd bd,
    l = LConv2d c /\ conv_stride c = s /\ conv_padding c = p
    /\ conv_groups c = 1
    /\ h !! conv_weight c = Some (Tensor [co; ci; k; k] wd)
    /\ h !! conv_bias c = Some (Tensor [co] bd).

Definition is_linear (h : heap) (l : layer) (i o : Z) : Prop :=
  exists c wd bd,
    l = LLinear c
    /\ h !! lin_weight c = Some (Tensor [o; i] wd)
    /\ h !! lin_bias c = Some (Tensor [o] bd).

(** The layers [InceptionBlock.__init__] leaves in the module. *)
Definition Inception_layers (h : heap) (in_channels : Z)
    (self : InceptionBlock) : Prop :=
  let out_1 := in_channels / 4 in
  is_conv h (conv1x1_1 self) (in_channels / 2) in_channels 1 1 0
  /\ is_conv h (conv1x1_2 self) out_1 in_channels 1 1 0
  /\ is_conv h (conv3x3 self) (3 * out_1) out_1 3 1 1
  /\ is_conv h (conv1x1_3 self) out_1 in_channels 1 1 0
  /\ is_conv h (conv5x5 self) ((3 * out_1) / 2) out_1 1 1 0
  /\ is_conv h (conv1x1_4 self) out_1 in_channels 1 1 0.

(** The layers [SqueezeAndExciteBlock.__init__] leaves in the module. *)
Definition SqueezeAndExcite_layers (h : heap) (in_channels downsample : Z)
    (self : SqueezeAndExciteBlock) : Prop :=
  let median_channels := in_channels / downsample in
  is_linear h (fully_connected_1 self) in_channels median_channels
  /\ is_linear h (fully_connected_2 self) median_channels in_channels.

(** The two classes whose constructor does not stop on a name. *)
Definition builds (c : ctor) : bool :=
  match c with
  | New_InceptionBlock _ | New_SqueezeAndExciteBlock _ _ => true
  | _ => false
  end.

(** The number of channels of the inception block's output. *)
Definition Inception_out_channels (in_channels : Z) : Z :=
  in_channels / 2 + 3 * (in_channels / 4) + (3 * (in_channels / 4)) / 2
  + in_channels / 4.

(** The ceiling of [a / 2], as a rational. *)
Definition ceil_half (a : Z) : Z :=
  Qround.Qceiling (QArith_base.Qmake a 2).

(** A computation that only adds objects to the heap. *)
Definition grows {A} (m : M A) : Prop :=
  forall h, h `prefix_of` (m h).2.

(** A result that, if it is an exception, is one of the library's. *)
Definition torch_res {A} (r : result A) : Prop :=
  forall e, r = Raise e -> raised_by_torch e = true.

(** A constructed module computes, on every later heap that still holds
    its parameters, a value that depends on the input's value only. *)
Definition block_spec (h : heap) (b : block) (v : tensor) : result tensor :=
  match b with
  | B_Inception self => Inception_spec h self v
  | B_SqueezeAndExcite self => SqueezeAndExcite_spec h self v
  | _ => Raise (SystemError "no such module")
  end.

(** The number of scalars held by a list of tensors. *)
Definition count_elements (l : list tensor) : Z :=
  fold_right (fun t acc => numel (size t) + acc) 0 l.

(** A computation whose result, when there is one, is an object that did
    not exist before. *)
Definition returns_new (m : M addr) : Prop :=
  forall h a h', m h = (Ok a, h') -> (length h <= a < length h')%nat.

(** * Properties *)

(** ** Runs on concrete inputs *)

Example InceptionBlock_8_on_5x5 :
  exists d,
    outcome (build_and_call (New_InceptionBlock 8) 0%nat
               [Tensor [2; 8; 5; 5] (Var "x")])
    = Ok (Some (Tensor [2; 15; 5; 5] d)).
Proof. eexists. reflexivity. Qed.

Example SqueezeAndExciteBlock_8_2_on_5x5 :
  outcome (build_and_call (New_SqueezeAndExciteBlock 8 2) 0%nat
             [Tensor [2; 8; 5; 5] (Var "x")])
  = Ok (Some (Tensor [2; 16; 5; 5]
                (App (cat 1)
                   [Var "x";
                    App mul
                      [Var "x";
                       App (view [2; -1; 1; 1])
                         [App sigmoid
                            [App linear
                               [App relu
                                  [App linear
                                     [App (view [2; -1])
                                        [App (adaptive_avg_pool2d 1 1)
                                           [Var "x"]];
                                      Rand 1; Rand 2]];
                                Rand 3; Rand 4]]]]]))).
Proof. reflexivity. Qed.

Example SqueezeAndExciteBlock_wrong_channels :
  outcome (build_and_call (New_SqueezeAndExciteBlock 8 2) 0%nat
             [Tensor [2; 3; 5; 5] (Var "x")])
  = Raise (runtime_error "mat1 and mat2 shapes cannot be multiplied").
Proof. reflexivity. Qed.

(** The pooling to size (1, 1) is a mean over the last two dimensions and
    takes an image without rows, or a batch without channels, as it
    comes; an empty batch leaves the reshape of line 198 nothing to infer
    the second dimension from. *)
Example SqueezeAndExciteBlock_on_empty_tensors :
  (exists d,
      outcome (build_and_call (New_SqueezeAndExciteBlock 8 2) 0%nat
                 [Tensor [2; 8; 0; 5] (Var "x")])
      = Ok (Some (Tensor [2; 16; 0; 5] d)))
  /\ (exists d,
        outcome (build_and_call (New_SqueezeAndExciteBlock 0 2) 0%nat
                   [Tensor [2; 0; 5; 5] (Var "x")])
        = Ok (Some (Tensor [2; 0; 5; 5] d)))
  /\ adaptive_avg_pool2d_fn 1 1 (Tensor [0; 8; 5; 5] (Var "x"))
     = Ok (Tensor [0; 8; 1; 1] (App (adaptive_avg_pool2d 1 1) [Var "x"]))
  /\ adaptive_avg_pool2d_fn 1 1 (Tensor [2; 3; 4; 5; 6] (Var "x"))
     = Ok (Tensor [2; 3; 4; 1; 1] (App (adaptive_avg_pool2d 1 1) [Var "x"]))
  /\ adaptive_avg_pool2d_fn 1 1 (Tensor [5; 5] (Var "x"))
     = Raise (value_error "Input dimension should be at least 3").
Proof. repeat split; eexists; reflexivity. Qed.

Example ResidualBlock_midle_channels_3_8 :
  ResidualBlock_midle_channels 3 8 = 6 /\ DenseBlock_midle_channels 7 = 4.
Proof. split; reflexivity. Qed.

Example lookup_global_depthwise :
  lookup_global "depthwise" = Raise (NameError "depthwise")
  /\ lookup_global "out_channels" = Raise (NameError "out_channels")
  /\ lookup_global "BottleneckBlock" = Raise (NameError "BottleneckBlock")
  /\ lookup_global "ConvBottleneck" = Ok (PyClass "ConvBottleneck")
  /\ nn_attr "ReLu" = Raise (AttributeError "torch.nn" "ReLu")
  /\ nn_attr "ReLU" = Ok C_ReLU.
Proof. repeat split. Qed.

(** In training mode a batch normalisation layer moves its running
    estimates when it is called: cell 3 holds the running mean of the
    layer built here, cell 5 the number of batches seen. *)
Example BatchNorm2d_forward_moves_running_stats :
  let run :=
    (b <- BatchNorm2d_new 3 ;; BatchNorm2d_forward b 0%nat)
      [Tensor [2; 3; 4; 4] (Var "x")] in
  is_ok run.1 = true
  /\ run.2 !! 3%nat
     = Some (Tensor [3] (App (running_stat 1 10) [Fill 0; Var "x"]))
  /\ run.2 !! 5%nat = Some (Tensor [] (App add [Fill 0; Fill 1])).
Proof. repeat split. Qed.

(** ** The monad *)

Lemma bind_Ok_inv {A B} (m : M A) (f : A -> M B) h b h2 :
  bind m f h = (Ok b, h2) ->
  exists a h1, m h = (Ok a, h1) /\ f a h1 = (Ok b, h2).
Proof.
  unfold bind. destruct (m h) as [[a|e] h1]; [eauto | discriminate].
Qed.

Lemma bind_inv {A B} (m : M A) (f : A -> M B) h r h2 :
  bind m f h = (r, h2) ->
  (exists a h1, m h = (Ok a, h1) /\ f a h1 = (r, h2))
  \/ (exists e, m h = (Raise e, h2) /\ r = Raise e).
Proof.
  unfold bind. destruct (m h) as [[a|e] h1]; [eauto |].
  intros [= <- <-]. eauto.
Qed.

(** ** Computations that only add objects to the heap *)

Lemma grows_ret {A} (a : A) : grows (ret a).
Proof. intros h. reflexivity. Qed.

Lemma grows_raise {A} e : grows (@raise A e).
Proof. intros h. reflexivity. Qed.

Lemma grows_lift {A} (r : result A) : grows (lift r).
Proof. intros h. reflexivity. Qed.

Lemma grows_load a : grows (load a).
Proof. intros h. unfold load. now destruct (h !! a). Qed.

Lemma grows_alloc t : grows (alloc t).
Proof. intros h. apply prefix_app_r. reflexivity. Qed.

Lemma grows_bind {A B} (m : M A) (f : A -> M B) :
  grows m -> (forall a, grows (f a)) -> grows (bind m f).
Proof.
  intros Hm Hf h. unfold bind. specialize (Hm h).
  destruct (m h) as [[a|e] h1]; simpl in *; [| assumption].
  etransitivity; [eassumption | apply Hf].
Qed.

Lemma grows_if {A} (b : bool) (m1 m2 : M A) :
  grows m1 -> grows m2 -> grows (if b then m1 else m2).
Proof. now destruct b. Qed.

Create HintDb grows.
#[local] Hint Resolve grows_ret grows_raise grows_lift grows_load grows_alloc
  grows_if : grows.
#[local] Hint Extern 2 (grows (bind _ _)) =>
  apply grows_bind; [| intros ?] : grows.

Lemma grows_op1 f a : grows (op1 f a).
Proof. unfold op1. auto 10 with grows. Qed.

Lemma grows_op2 f a b : grows (op2 f a b).
Proof. unfold op2. auto 10 with grows. Qed.

Lemma grows_op3 f a b c : grows (op3 f a b c).
Proof. unfold op3. auto 10 with grows. Qed.

Lemma grows_load_all l : grows (load_all l).
Proof. induction l; simpl; auto 10 with grows. Qed.

Lemma grows_opl f l : grows (opl f l).
Proof. unfold opl. pose proof (grows_load_all l). auto 10 with grows. Qed.

Lemma grows_tensor_size a d : grows (tensor_size a d).
Proof. unfold tensor_size. auto 10 with grows. Qed.

Lemma grows_torch_empty s : grows (torch_empty s).
Proof.
  intros h. unfold torch_empty.
  apply (grows_bind (lift (new_tensor s (Rand (length h)))) alloc);
    auto with grows.
Qed.

Lemma grows_torch_full s c : grows (torch_full s c).
Proof. unfold torch_full. auto 10 with grows. Qed.

#[local] Hint Resolve grows_op1 grows_op2 grows_op3 grows_opl
  grows_tensor_size grows_torch_empty grows_torch_full : grows.

Lemma grows_nn_call cls args : grows (nn_call cls args).
Proof.
  unfold nn_call, Conv2d_new, BatchNorm2d_new, Linear_new.
  repeat case_match; auto 20 with grows.
Qed.

Lemma grows_nn_new name args : grows (nn_new name args).
Proof. unfold nn_new. pose proof grows_nn_call. auto 10 with grows. Qed.

Lemma grows_super_init c n : grows (super_init c n).
Proof.
  unfold super_init. repeat (apply grows_bind; [auto with grows | intros ?]).
  repeat case_match; auto with grows.
Qed.

#[local] Hint Resolve grows_nn_new grows_super_init : grows.

Lemma grows_InceptionBlock_init ic : grows (InceptionBlock_init ic).
Proof. unfold InceptionBlock_init. auto 20 with grows. Qed.

Lemma grows_SqueezeAndExciteBlock_init ic ds :
  grows (SqueezeAndExciteBlock_init ic ds).
Proof. unfold SqueezeAndExciteBlock_init. auto 20 with grows. Qed.

Lemma grows_elim {A} (m : M A) h r h' :
  grows m -> m h = (r, h') -> h `prefix_of` h'.
Proof. intros Hm Hr. specialize (Hm h). now rewrite Hr in Hm. Qed.

(** ** Running the operations of the library *)

Lemma lookup_snoc_last (h : list tensor) t : (h ++ [t]) !! length h = Some t.
Proof. rewrite lookup_app_r by lia. now rewrite Nat.sub_diag. Qed.

Lemma lookup_app_old (h l : list tensor) a v :
  h !! a = Some v -> (h ++ l) !! a = Some v.
Proof. intros H. now apply lookup_app_l_Some. Qed.

Lemma runs_intro (m : M addr) h r :
  (match r with
   | Ok t => exists l, m h = (Ok (length (h ++ l)), (h ++ l) ++ [t])
   | Raise e => exists l, m h = (Raise e, h ++ l)
   end) ->
  runs m h r.
Proof.
  destruct r as [t|e]; intros [l Hm]; unfold runs, outcome; rewrite Hm; simpl.
  - exists (l ++ [t]). rewrite lookup_snoc_last, app_assoc. auto.
  - exists l. auto.
Qed.

Lemma runs_lift_alloc (r : result tensor) h :
  runs (t <- lift r ;; alloc t) h r.
Proof.
  apply runs_intro. destruct r; exists []; now rewrite !app_nil_r.
Qed.

Lemma runs_op1 f a h x : h !! a = Some x -> runs (op1 f a) h (f x).
Proof.
  intros Ha. pose proof (runs_lift_alloc (f x) h) as R.
  unfold runs, op1, bind, load in *. now rewrite Ha.
Qed.

Lemma runs_op2 f a b h x y :
  h !! a = Some x -> h !! b = Some y -> runs (op2 f a b) h (f x y).
Proof.
  intros Ha Hb. pose proof (runs_lift_alloc (f x y) h) as R.
  unfold runs, op2, bind, load in *. now rewrite Ha, Hb.
Qed.

Lemma runs_op3 f a b c h x y z :
  h !! a = Some x -> h !! b = Some y -> h !! c = Some z ->
  runs (op3 f a b c) h (f x y z).
Proof.
  intros Ha Hb Hc. pose proof (runs_lift_alloc (f x y z) h) as R.
  unfold runs, op3, bind, load in *. now rewrite Ha, Hb, Hc.
Qed.

Lemma load_all_run l h xs :
  Forall2 (fun a x => h !! a = Some x) l xs -> load_all l h = (Ok xs, h).
Proof.
  induction 1 as [|a x l xs Ha _ IH]; simpl; [reflexivity |].
  unfold bind, load, ret in *. now rewrite Ha, IH.
Qed.

Lemma runs_opl f l h xs :
  Forall2 (fun a x => h !! a = Some x) l xs -> runs (opl f l) h (f xs).
Proof.
  intros Hl. pose proof (runs_lift_alloc (f xs) h) as R.
  unfold runs, opl in *. unfold bind at 1. unfold bind at 2.
  now rewrite (load_all_run _ _ _ Hl).
Qed.

Lemma runs_ret a h t : h !! a = Some t -> runs (ret a) h (Ok t).
Proof.
  intros Ha. exists []. unfold outcome. simpl. now rewrite app_nil_r, Ha.
Qed.

(** Sequencing: the rest of the computation runs in a heap where all the
    objects alive so far are unchanged. *)
Lemma runs_bind (m : M addr) (f : addr -> M addr) h r g :
  runs m h r ->
  (forall a t h',
      r = Ok t ->
      (forall b v, h !! b = Some v -> h' !! b = Some v) ->
      h' !! a = Some t ->
      runs (f a) h' (g t)) ->
  runs (bind m f) h (rbind r g).
Proof.
  intros (l & Hl & Ho) Hf. unfold runs, outcome, bind in *.
  destruct (m h) as [[a|e] h1]; simpl in *; subst h1.
  - destruct r as [t|e]; simpl in Ho; [| discriminate].
    injection Ho as Ha.
    assert (R : runs (f a) (h ++ l) (g t)).
    { apply Hf; [reflexivity | | assumption].
      intros b v. apply lookup_app_old. }
    destruct R as (l2 & Hl2 & Ho2).
    exists (l ++ l2). split; [now rewrite app_assoc | exact Ho2].
  - destruct r as [t|e']; simpl in Ho; [discriminate |].
    injection Ho as <-. exists l. auto.
Qed.

Lemma runs_bind_ret (m : M addr) h r :
  runs m h r -> runs (bind m (fun a => ret a)) h r.
Proof.
  intros R. replace r with (rbind r Ok) by now destruct r.
  eapply runs_bind; [eassumption |].
  intros a t h' _ _ Ha. now apply runs_ret.
Qed.

(** [output.size(d)] in the middle of a computation. *)
Lemma runs_bind_size (f : Z -> M addr) a d h t g :
  h !! a = Some t ->
  (forall n, size_fn d t = Ok n -> runs (f n) h (g n)) ->
  runs (bind (tensor_size a d) f) h (rbind (size_fn d t) g).
Proof.
  intros Ha Hf. unfold tensor_size, runs, outcome, bind, load, lift in *.
  rewrite Ha. destruct (size_fn d t) as [n|e]; simpl.
  - now apply Hf.
  - exists []. now rewrite app_nil_r.
Qed.

(** Calling a layer computes its value. *)
Lemma runs_call_layer h0 h l a x :
  pure_layer h0 l ->
  (forall b v, h0 !! b = Some v -> h !! b = Some v) ->
  h !! a = Some x ->
  runs (call_layer l a) h (layer_fn h0 l x).
Proof.
  intros Hl Hext Ha. destruct l; simpl in *; try tauto.
  - destruct Hl as [[w Hw] [b Hb]]. rewrite Hw, Hb.
    apply runs_op3; auto.
  - now apply runs_op1.
  - destruct Hl as [[w Hw] [b Hb]]. rewrite Hw, Hb.
    apply runs_op3; auto.
Qed.

Lemma rbind_assoc {A B C} (r : result A) (f : A -> result B)
    (g : B -> result C) :
  rbind (rbind r f) g = rbind r (fun a => rbind (f a) g).
Proof. now destruct r. Qed.

(** An object alive in an earlier heap is alive, unchanged, now. *)
Ltac live :=
  first
    [ eassumption
    | match goal with
      | H : forall b v, _ !! b = Some v -> ?h' !! b = Some v
        |- ?h' !! _ = Some _ => apply H; live
      end ].

Ltac run_with tac :=
  cbv beta; rewrite ?rbind_assoc;
  eapply runs_bind; [ tac | intros ? ? ? _ ? ? ].

Ltac run_op :=
  first
    [ apply runs_op1; live
    | apply runs_op2; live
    | eapply runs_call_layer; [ eassumption | intros ? ? ?; live | live ] ].

(** ** The forward passes compute the values of the specifications *)

Lemma InceptionBlock_forward_runs h self x v :
  pure_layer h (conv1x1_1 self) -> pure_layer h (conv1x1_2 self) ->
  pure_layer h (conv3x3 self) -> pure_layer h (conv1x1_3 self) ->
  pure_layer h (conv5x5 self) -> pure_layer h (conv1x1_4 self) ->
  h !! x = Some v ->
  runs (InceptionBlock_forward self x) h (Inception_spec h self v).
Proof.
  intros P1 P2 P3 P4 P5 P6 Hx.
  unfold InceptionBlock_forward, Inception_spec, Inception_branch_1,
    Inception_branch_2, Inception_branch_3, Inception_branch_4,
    F_relu, F_max_pool2d, torch_cat.
  do 13 (run_with run_op).
  cbv beta. apply runs_bind_ret, runs_opl.
  repeat constructor; live.
Qed.

Lemma SqueezeAndExciteBlock_forward_runs h self x v :
  pure_layer h (fully_connected_1 self) ->
  pure_layer h (fully_connected_2 self) ->
  h !! x = Some v ->
  runs (SqueezeAndExciteBlock_forward self x) h
       (SqueezeAndExcite_spec h self v).
Proof.
  intros P1 P2 Hx.
  unfold SqueezeAndExciteBlock_forward, SqueezeAndExcite_spec,
    global_avg_pool, excitation, scale_channels,
    F_adaptive_avg_pool2d, F_relu, F_sigmoid, tensor_view, tensor_mul,
    torch_cat.
  run_with run_op.
  cbv beta. rewrite ?rbind_assoc.
  eapply runs_bind_size; [live | intros n _].
  do 5 (run_with run_op).
  cbv beta. rewrite ?rbind_assoc.
  eapply runs_bind_size; [live | intros n' _].
  do 2 (run_with run_op).
  cbv beta. apply runs_bind_ret, runs_opl.
  repeat constructor; live.
Qed.

(** ** The constructors of the library *)

Lemma torch_empty_run s h :
  torch_empty s h =
  if forallb (fun d => 0 <=? d) s
  then (Ok (length h), h ++ [Tensor s (Rand (length h))])
  else (Raise (runtime_error
                 "Trying to create tensor with negative dimension"), h).
Proof.
  unfold torch_empty, new_tensor, bind, lift, alloc, guard, rbind.
  now destruct (forallb _ s).
Qed.

Lemma nn_new_Conv2d_run i o k s p h :
  nn_new "Conv2d" [i; o; k; s; p; 1] h =
  if forallb (fun d => 0 <=? d) [o; i; k; k]
  then (Ok (LConv2d {| conv_in_channels := i; conv_out_channels := o;
                       conv_kernel_size := k; conv_stride := s;
                       conv_padding := p; conv_groups := 1;
                       conv_weight := length h;
                       conv_bias :=
                         length (h ++ [Tensor [o; i; k; k] (Rand (length h))]) |}),
        (h ++ [Tensor [o; i; k; k] (Rand (length h))])
          ++ [Tensor [o]
                (Rand (length (h ++ [Tensor [o; i; k; k] (Rand (length h))])))])
  else (Raise (runtime_error
                 "Trying to create tensor with negative dimension"), h).
Proof.
  unfold nn_new. unfold bind at 1. unfold lift at 1.
  change (nn_attr "Conv2d") with (Ok C_Conv2d).
  unfold nn_call, Conv2d_new.
  rewrite !Z.mod_1_r, Z.div_1_r.
  unfold bind, lift, guard, ret. change (0 <? 1) with true. cbv iota beta.
  rewrite torch_empty_run.
  destruct (forallb _ [o; i; k; k]) eqn:E; [| reflexivity].
  rewrite torch_empty_run.
  assert (forallb (fun d => 0 <=? d) [o] = true) as ->; [| reflexivity].
  simpl in *. now destruct (0 <=? o).
Qed.

Lemma nn_new_Linear_run i o h :
  nn_new "Linear" [i; o] h =
  if forallb (fun d => 0 <=? d) [o; i]
  then (Ok (LLinear {| lin_in_features := i; lin_out_features := o;
                       lin_weight := length h;
                       lin_bias :=
                         length (h ++ [Tensor [o; i] (Rand (length h))]) |}),
        (h ++ [Tensor [o; i] (Rand (length h))])
          ++ [Tensor [o]
                (Rand (length (h ++ [Tensor [o; i] (Rand (length h))])))])
  else (Raise (runtime_error
                 "Trying to create tensor with negative dimension"), h).
Proof.
  unfold nn_new. unfold bind at 1. unfold lift at 1.
  change (nn_attr "Linear") with (Ok C_Linear).
  unfold nn_call, Linear_new.
  unfold bind, lift, guard, ret.
  rewrite torch_empty_run.
  destruct (forallb _ [o; i]) eqn:E; [| reflexivity].
  rewrite torch_empty_run.
  assert (forallb (fun d => 0 <=? d) [o] = true) as ->; [| reflexivity].
  simpl in *. now destruct (0 <=? o).
Qed.

Lemma is_conv_mono h h' l co ci k s p :
  (forall b v, h !! b = Some v -> h' !! b = Some v) ->
  is_conv h l co ci k s p -> is_conv h' l co ci k s p.
Proof.
  intros Hext (c & wd & bd & -> & Hs & Hp & Hg & Hw & Hb).
  exists c, wd, bd. auto 10.
Qed.

Lemma is_linear_mono h h' l i o :
  (forall b v, h !! b = Some v -> h' !! b = Some v) ->
  is_linear h l i o -> is_linear h' l i o.
Proof.
  intros Hext (c & wd & bd & -> & Hw & Hb).
  exists c, wd, bd. auto 10.
Qed.

Lemma is_conv_pure h l co ci k s p : is_conv h l co ci k s p -> pure_layer h l.
Proof. intros (c & wd & bd & -> & _ & _ & _ & Hw & Hb). simpl. eauto. Qed.

Lemma is_linear_pure h l i o : is_linear h l i o -> pure_layer h l.
Proof. intros (c & wd & bd & -> & Hw & Hb). simpl. eauto. Qed.

(** A successful [nn.Conv2d(...)] leaves a convolution layer whose weight
    and bias are new objects, and changes no other object. *)
Lemma nn_new_Conv2d_inv i o k s p h l h' :
  nn_new "Conv2d" [i; o; k; s; p; 1] h = (Ok l, h') ->
  is_conv h' l o i k s p
  /\ (forall b v, h !! b = Some v -> h' !! b = Some v).
Proof.
  rewrite nn_new_Conv2d_run. destruct (forallb _ _); [| discriminate].
  intros [= <- <-]. split.
  - eexists _, _, _. repeat split; simpl.
    + apply lookup_app_old, lookup_snoc_last.
    + apply lookup_snoc_last.
  - intros b v Hb. now do 2 apply lookup_app_old.
Qed.

Lemma nn_new_Linear_inv i o h l h' :
  nn_new "Linear" [i; o] h = (Ok l, h') ->
  is_linear h' l i o
  /\ (forall b v, h !! b = Some v -> h' !! b = Some v).
Proof.
  rewrite nn_new_Linear_run. destruct (forallb _ _); [| discriminate].
  intros [= <- <-]. split.
  - eexists _, _, _. repeat split; simpl.
    + apply lookup_app_old, lookup_snoc_last.
    + apply lookup_snoc_last.
  - intros b v Hb. now do 2 apply lookup_app_old.
Qed.

(** ** What the constructors of the two working blocks leave behind *)

Lemma InceptionBlock_init_inv ic h self h' :
  InceptionBlock_init ic h = (Ok self, h') ->
  Inception_layers h' ic self.
Proof.
  unfold InceptionBlock_init. intros H.
  apply bind_Ok_inv in H as ([] & h0 & H0 & H).
  assert (h0 = h) as -> by now injection H0.
  clear H0.
  apply bind_Ok_inv in H as (l1 & h1 & H1 & H).
  apply nn_new_Conv2d_inv in H1 as [C1 E1].
  apply bind_Ok_inv in H as (l2 & h2 & H2 & H).
  apply nn_new_Conv2d_inv in H2 as [C2 E2].
  apply bind_Ok_inv in H as (l3 & h3 & H3 & H).
  apply nn_new_Conv2d_inv in H3 as [C3 E3].
  apply bind_Ok_inv in H as (l4 & h4 & H4 & H).
  apply nn_new_Conv2d_inv in H4 as [C4 E4].
  apply bind_Ok_inv in H as (l5 & h5 & H5 & H).
  apply nn_new_Conv2d_inv in H5 as [C5 E5].
  apply bind_Ok_inv in H as (l6 & h6 & H6 & H).
  apply nn_new_Conv2d_inv in H6 as [C6 E6].
  injection H as <- <-. unfold Inception_layers. simpl.
  repeat split;
    (eapply is_conv_mono; [| eassumption]); intros b v Hb; live.
Qed.

Lemma SqueezeAndExciteBlock_init_inv ic ds h self h' :
  SqueezeAndExciteBlock_init ic ds h = (Ok self, h') ->
  ds <> 0 /\ SqueezeAndExcite_layers h' ic ds self.
Proof.
  unfold SqueezeAndExciteBlock_init. intros H.
  apply bind_Ok_inv in H as ([] & h0 & H0 & H).
  assert (h0 = h) as -> by now injection H0.
  clear H0.
  apply bind_Ok_inv in H as (m & h0 & Hm & H).
  unfold lift, py_floordiv in Hm.
  destruct (Z.eqb_spec ds 0) as [|Hds]; [discriminate |].
  injection Hm as <- <-.
  apply bind_Ok_inv in H as (l1 & h1 & H1 & H).
  apply nn_new_Linear_inv in H1 as [C1 E1].
  apply bind_Ok_inv in H as (l2 & h2 & H2 & H).
  apply nn_new_Linear_inv in H2 as [C2 E2].
  injection H as <- <-. split; [assumption |].
  unfold SqueezeAndExcite_layers. simpl.
  split; [eapply is_linear_mono; [| eassumption]; intros b v Hb; live
         | assumption].
Qed.

(** ** Shapes *)

Ltac zbool :=
  repeat first
    [ rewrite Z.eqb_refl
    | match goal with
      | |- context [?a <=? ?b] => rewrite (proj2 (Z.leb_le a b)) by lia
      | |- context [?a <? ?b] => rewrite (proj2 (Z.ltb_lt a b)) by lia
      | |- context [?a =? ?b] => rewrite (proj2 (Z.eqb_eq a b)) by lia
      | |- context [?a =? ?b] => rewrite (proj2 (Z.eqb_neq a b)) by lia
      end ].

(** A window of odd size [k] with stride 1 and padding [(k - 1) / 2]
    keeps the length. *)
Lemma window_out_same len k p : 2 * p = k - 1 -> window_out len k 1 p 1 = len.
Proof. intros H. unfold window_out. rewrite Z.div_1_r. lia. Qed.

Lemma conv2d_fn_same n ci co k p hh ww xd wd bd :
  1 <= co -> 0 <= p -> 2 * p = k - 1 -> 1 <= hh -> 1 <= ww ->
  conv2d_fn 1 p 1 1 (Tensor [n; ci; hh; ww] xd)
    (Tensor [co; ci; k; k] wd) (Tensor [co] bd)
  = Ok (Tensor [n; co; hh; ww] (App (conv2d 1 p 1 1) [xd; wd; bd])).
Proof.
  intros Hco Hp Hk Hh Hw. unfold conv2d_fn, guard, kernel_fits. simpl.
  rewrite Z.mod_1_r, Z.mul_1_r, !window_out_same by assumption.
  zbool. reflexivity.
Qed.

Lemma layer_fn_conv h l n ci co k p hh ww xd :
  is_conv h l co ci k 1 p ->
  1 <= co -> 0 <= p -> 2 * p = k - 1 -> 1 <= hh -> 1 <= ww ->
  exists wd bd,
    layer_fn h l (Tensor [n; ci; hh; ww] xd)
    = Ok (Tensor [n; co; hh; ww] (App (conv2d 1 p 1 1) [xd; wd; bd])).
Proof.
  intros (c & wd & bd & -> & Hs & Hp & Hg & Hw & Hb) ? ? ? ? ?.
  exists wd, bd. simpl. rewrite Hw, Hb, Hs, Hp, Hg.
  now apply conv2d_fn_same.
Qed.

Lemma max_pool2d_fn_same n c hh ww xd :
  1 <= c -> 1 <= hh -> 1 <= ww ->
  max_pool2d_fn 3 1 1 (Tensor [n; c; hh; ww] xd)
  = Ok (Tensor [n; c; hh; ww] (App (max_pool2d 3 1 1) [xd])).
Proof.
  intros Hc Hh Hw. unfold max_pool2d_fn, guard. simpl.
  rewrite !window_out_same by lia. zbool. reflexivity.
Qed.

Lemma cat_fn_channels n hh ww (cs : list (Z * term)) c0 d0 :
  cat_fn 1 (map (fun cd => Tensor [n; cd.1; hh; ww] cd.2) ((c0, d0) :: cs))
  = Ok (Tensor [n; fold_left Z.add (map fst cs) c0; hh; ww]
          (App (cat 1) (map snd ((c0, d0) :: cs)))).
Proof.
  unfold cat_fn, guard. simpl.
  assert (Hs : forall acc,
             cat_sizes 1 [n; acc; hh; ww]
               (map (fun cd : Z * term => Tensor [n; cd.1; hh; ww] cd.2) cs)
             = Some [n; fold_left Z.add (map fst cs) acc; hh; ww]).
  { induction cs as [|[c d] cs IH]; intros acc; simpl; [reflexivity |].
    rewrite !Z.eqb_refl. simpl. apply IH. }
  rewrite Hs. do 3 f_equal.
  rewrite map_map. reflexivity.
Qed.

Lemma linear_fn_2d n i o xd wd bd :
  linear_fn (Tensor [n; i] xd) (Tensor [o; i] wd) (Tensor [o] bd)
  = Ok (Tensor [n; o] (App linear [xd; wd; bd])).
Proof. unfold linear_fn, guard. simpl. zbool. reflexivity. Qed.

Lemma layer_fn_linear h l n i o xd :
  is_linear h l i o ->
  exists wd bd,
    layer_fn h l (Tensor [n; i] xd)
    = Ok (Tensor [n; o] (App linear [xd; wd; bd])).
Proof.
  intros (c & wd & bd & -> & Hw & Hb).
  exists wd, bd. simpl. rewrite Hw, Hb. apply linear_fn_2d.
Qed.

Lemma global_avg_pool_shape n c hh ww xd :
  1 <= n ->
  global_avg_pool (Tensor [n; c; hh; ww] xd)
  = Ok (Tensor [n; c]
          (App (view [n; -1]) [App (adaptive_avg_pool2d 1 1) [xd]])).
Proof.
  intros Hn.
  unfold global_avg_pool, adaptive_avg_pool2d_fn, guard. simpl.
  unfold view_fn, guard. simpl. zbool. simpl. zbool. simpl.
  replace (n * (c * (1 * (1 * 1)))) with (c * (n * 1)) by lia.
  rewrite Z.mod_mul, Z.div_mul by lia. zbool.
  rewrite orb_true_r. reflexivity.
Qed.

Lemma broadcast_dim_1_r x : broadcast_dim x 1 = Some x.
Proof.
  unfold broadcast_dim. destruct (Z.eqb_spec x 1); [now subst | reflexivity].
Qed.

Lemma broadcast_dim_refl x : broadcast_dim x x = Some x.
Proof. unfold broadcast_dim. now rewrite Z.eqb_refl. Qed.

Lemma scale_channels_shape n c hh ww xd gd :
  1 <= n ->
  scale_channels (Tensor [n; c; hh; ww] xd) (Tensor [n; c] gd)
  = Ok (Tensor [n; c; hh; ww]
          (App mul [xd; App (view [n; -1; 1; 1]) [gd]])).
Proof.
  intros Hn. unfold scale_channels. simpl.
  unfold view_fn, guard. simpl. zbool. simpl. zbool. simpl.
  replace (n * (c * 1)) with (c * (n * (1 * (1 * 1)))) by lia.
  rewrite Z.mod_mul, Z.div_mul by lia. zbool. rewrite orb_true_r. simpl.
  unfold mul_fn, broadcast. simpl.
  rewrite !broadcast_dim_1_r, !broadcast_dim_refl. reflexivity.
Qed.

(** ** Where exceptions come from *)

Lemma torch_res_ok {A} (a : A) : torch_res (Ok a).
Proof. intros e. discriminate. Qed.

Lemma torch_res_raise {A} kind msg : torch_res (@Raise A (TorchError kind msg)).
Proof. now intros e [= <-]. Qed.

Lemma torch_res_rbind {A B} (r : result A) (f : A -> result B) :
  torch_res r -> (forall a, torch_res (f a)) -> torch_res (rbind r f).
Proof.
  intros Hr Hf e. destruct r as [a|e']; simpl.
  - apply Hf.
  - intros [= <-]. now apply Hr.
Qed.

Lemma torch_res_guard b kind msg : torch_res (guard b (TorchError kind msg)).
Proof. destruct b; [apply torch_res_ok | apply torch_res_raise]. Qed.

Ltac torch_res_tac :=
  unfold runtime_error, value_error, index_error;
  repeat first
    [ apply torch_res_ok
    | apply torch_res_raise
    | apply torch_res_guard
    | apply torch_res_rbind; [| intros ?]
    | case_match ].

Lemma torch_res_conv2d_fn s p d g x w b : torch_res (conv2d_fn s p d g x w b).
Proof. unfold conv2d_fn. torch_res_tac. Qed.

Lemma torch_res_max_pool2d_fn k s p x : torch_res (max_pool2d_fn k s p x).
Proof. unfold max_pool2d_fn. torch_res_tac. Qed.

Lemma torch_res_adaptive_avg_pool2d_fn oh ow x :
  torch_res (adaptive_avg_pool2d_fn oh ow x).
Proof. unfold adaptive_avg_pool2d_fn. torch_res_tac. Qed.

Lemma torch_res_relu_fn x : torch_res (relu_fn x).
Proof. apply torch_res_ok. Qed.

Lemma torch_res_sigmoid_fn x : torch_res (sigmoid_fn x).
Proof. apply torch_res_ok. Qed.

Lemma torch_res_linear_fn x w b : torch_res (linear_fn x w b).
Proof. unfold linear_fn. torch_res_tac. Qed.

Lemma torch_res_size_fn d x : torch_res (size_fn d x).
Proof. unfold size_fn. torch_res_tac. Qed.

Lemma torch_res_view_fn s x : torch_res (view_fn s x).
Proof. unfold view_fn. torch_res_tac. Qed.

Lemma torch_res_mul_fn x y : torch_res (mul_fn x y).
Proof. unfold mul_fn, broadcast. torch_res_tac. Qed.

Lemma torch_res_cat_fn d l : torch_res (cat_fn d l).
Proof. unfold cat_fn. torch_res_tac. Qed.

Lemma torch_res_layer_fn h l x : pure_layer h l -> torch_res (layer_fn h l x).
Proof.
  destruct l; simpl; try tauto.
  - intros [[w ->] [b ->]]. apply torch_res_conv2d_fn.
  - intros _. apply torch_res_relu_fn.
  - intros [[w ->] [b ->]]. apply torch_res_linear_fn.
Qed.

Create HintDb torch.
#[local] Hint Resolve torch_res_conv2d_fn torch_res_max_pool2d_fn
  torch_res_adaptive_avg_pool2d_fn torch_res_relu_fn torch_res_sigmoid_fn
  torch_res_linear_fn torch_res_size_fn torch_res_view_fn torch_res_mul_fn
  torch_res_cat_fn torch_res_layer_fn torch_res_ok : torch.
#[local] Hint Extern 2 (torch_res (rbind _ _)) =>
  apply torch_res_rbind; [| intros ?] : torch.

Lemma torch_res_Inception_spec h self x :
  pure_layer h (conv1x1_1 self) -> pure_layer h (conv1x1_2 self) ->
  pure_layer h (conv3x3 self) -> pure_layer h (conv1x1_3 self) ->
  pure_layer h (conv5x5 self) -> pure_layer h (conv1x1_4 self) ->
  torch_res (Inception_spec h self x).
Proof.
  intros. unfold Inception_spec, Inception_branch_1, Inception_branch_2,
    Inception_branch_3, Inception_branch_4.
  auto 20 with torch.
Qed.

Lemma torch_res_SqueezeAndExcite_spec h self x :
  pure_layer h (fully_connected_1 self) ->
  pure_layer h (fully_connected_2 self) ->
  torch_res (SqueezeAndExcite_spec h self x).
Proof.
  intros. unfold SqueezeAndExcite_spec, global_avg_pool, excitation,
    scale_channels.
  auto 20 with torch.
Qed.

(** The same for the constructors. *)
Lemma nn_new_Conv2d_raises i o k s p h e h' :
  nn_new "Conv2d" [i; o; k; s; p; 1] h = (Raise e, h') ->
  raised_by_torch e = true.
Proof.
  rewrite nn_new_Conv2d_run. destruct (forallb _ _); [discriminate |].
  now intros [= <- _].
Qed.

Lemma nn_new_Linear_raises i o h e h' :
  nn_new "Linear" [i; o] h = (Raise e, h') ->
  raised_by_torch e = true.
Proof.
  rewrite nn_new_Linear_run. destruct (forallb _ _); [discriminate |].
  now intros [= <- _].
Qed.

Lemma InceptionBlock_init_raises ic h e h' :
  InceptionBlock_init ic h = (Raise e, h') -> raised_by_torch e = true.
Proof.
  unfold InceptionBlock_init. intros H.
  apply bind_inv in H as [([] & h0 & H0 & H) | (e0 & H0 & _)];
    [| discriminate H0].
  repeat
    (apply bind_inv in H as [(? & ? & _ & H) | (? & H & [= ->])];
     [| now apply nn_new_Conv2d_raises in H]).
  discriminate H.
Qed.

Lemma SqueezeAndExciteBlock_init_raises ic ds h e h' :
  SqueezeAndExciteBlock_init ic ds h = (Raise e, h') ->
  raised_by_torch e = true \/ (e = ZeroDivisionError /\ ds = 0).
Proof.
  unfold SqueezeAndExciteBlock_init. intros H.
  apply bind_inv in H as [([] & h0 & H0 & H) | (e0 & H0 & _)];
    [| discriminate H0].
  apply bind_inv in H as [(m & h1 & _ & H) | (e0 & H & [= ->])].
  - left.
    repeat
      (apply bind_inv in H as [(? & ? & _ & H) | (? & H & [= ->])];
       [| now apply nn_new_Linear_raises in H]).
    discriminate H.
  - right. unfold lift, py_floordiv in H.
    destruct (Z.eqb_spec ds 0); [| discriminate]. now injection H as <- _.
Qed.

(** ** The three constructors that stop on a name *)

Lemma ResidualBlock_init_not_Ok i o d b h self h' :
  ResidualBlock_init i o d b h <> (Ok self, h').
Proof.
  unfold ResidualBlock_init. intros H.
  apply bind_Ok_inv in H as (? & ? & _ & H).
  apply bind_Ok_inv in H as (cl & ? & _ & H).
  apply bind_Ok_inv in H as (st & ? & Hst & H).
  destruct b.
  - apply bind_Ok_inv in Hst as (? & ? & _ & Hst).
    apply bind_Ok_inv in Hst as (? & ? & _ & Hst).
    apply bind_Ok_inv in Hst as (? & ? & Hrelu & _).
    apply bind_Ok_inv in Hrelu as (? & ? & Hr & _).
    discriminate Hr.
  - apply bind_Ok_inv in H as (? & ? & Hd & _). discriminate Hd.
Qed.

Lemma DenseBlock_init_not_Ok i d b h self h' :
  DenseBlock_init i d b h <> (Ok self, h').
Proof.
  unfold DenseBlock_init. intros H.
  apply bind_Ok_inv in H as (? & ? & _ & H).
  apply bind_Ok_inv in H as (cl & ? & _ & H).
  apply bind_Ok_inv in H as (st & ? & Hst & H).
  destruct b.
  - apply bind_Ok_inv in Hst as (? & ? & _ & Hst).
    apply bind_Ok_inv in Hst as (? & ? & _ & Hst).
    apply bind_Ok_inv in Hst as (? & ? & Hrelu & _).
    apply bind_Ok_inv in Hrelu as (? & ? & Hr & _).
    discriminate Hr.
  - apply bind_Ok_inv in H as (? & ? & Hd & _). discriminate Hd.
Qed.

Lemma ConvBottleneck_init_run i s d h :
  ConvBottleneck_init i s d h = (Raise (NameError "BottleneckBlock"), h).
Proof. reflexivity. Qed.

Lemma construct_Ok_builds c h b h' :
  construct c h = (Ok b, h') -> builds c = true.
Proof.
  destruct c; simpl; intros H; try reflexivity;
    apply bind_Ok_inv in H as (m & h1 & H & _); exfalso.
  - now apply ResidualBlock_init_not_Ok in H.
  - now apply DenseBlock_init_not_Ok in H.
  - rewrite ConvBottleneck_init_run in H. discriminate H.
Qed.

(** ** The values of the two working blocks *)

Lemma Inception_spec_shape h ic self n hh ww xd :
  Inception_layers h ic self ->
  4 <= ic -> 1 <= hh -> 1 <= ww ->
  let x := Tensor [n; ic; hh; ww] xd in
  exists b1 b2 b3 b4 : term,
    Inception_branch_1 h self x = Ok (Tensor [n; ic / 2; hh; ww] b1)
    /\ Inception_branch_2 h self x = Ok (Tensor [n; 3 * (ic / 4); hh; ww] b2)
    /\ Inception_branch_3 h self x
       = Ok (Tensor [n; (3 * (ic / 4)) / 2; hh; ww] b3)
    /\ Inception_branch_4 h self x = Ok (Tensor [n; ic / 4; hh; ww] b4)
    /\ Inception_spec h self x
       = Ok (Tensor [n; Inception_out_channels ic; hh; ww]
               (App (cat 1) [b1; b2; b3; b4])).
Proof.
  intros (C1 & C2 & C3 & C4 & C5 & C6) Hic Hh Hw x. subst x.
  assert (H2 : 2 <= ic / 2) by (apply Z.div_le_lower_bound; lia).
  assert (H4 : 1 <= ic / 4) by (apply Z.div_le_lower_bound; lia).
  assert (H3 : 1 <= (3 * (ic / 4)) / 2) by (apply Z.div_le_lower_bound; lia).
  destruct (layer_fn_conv h _ n _ _ _ _ hh ww xd C1) as (? & ? & E1); try lia.
  destruct (layer_fn_conv h _ n _ _ _ _ hh ww xd C2) as (w2 & c2 & E2); try lia.
  destruct (layer_fn_conv h _ n _ _ _ _ hh ww
              (App relu [App (conv2d 1 0 1 1) [xd; w2; c2]]) C3)
    as (? & ? & E3); try lia.
  destruct (layer_fn_conv h _ n _ _ _ _ hh ww xd C4) as (w4 & c4 & E4); try lia.
  destruct (layer_fn_conv h _ n _ _ _ _ hh ww
              (App relu [App (conv2d 1 0 1 1) [xd; w4; c4]]) C5)
    as (? & ? & E5); try lia.
  destruct (layer_fn_conv h _ n _ _ _ _ hh ww
              (App (max_pool2d 3 1 1) [xd]) C6)
    as (? & ? & E6); try lia.
  assert (B1 : exists d, Inception_branch_1 h self (Tensor [n; ic; hh; ww] xd)
               = Ok (Tensor [n; ic / 2; hh; ww] d)).
  { unfold Inception_branch_1. rewrite E1. eexists. reflexivity. }
  assert (B2 : exists d, Inception_branch_2 h self (Tensor [n; ic; hh; ww] xd)
               = Ok (Tensor [n; 3 * (ic / 4); hh; ww] d)).
  { unfold Inception_branch_2. rewrite E2. simpl. rewrite E3.
    eexists. reflexivity. }
  assert (B3 : exists d, Inception_branch_3 h self (Tensor [n; ic; hh; ww] xd)
               = Ok (Tensor [n; (3 * (ic / 4)) / 2; hh; ww] d)).
  { unfold Inception_branch_3. rewrite E4. simpl. rewrite E5.
    eexists. reflexivity. }
  assert (B4 : exists d, Inception_branch_4 h self (Tensor [n; ic; hh; ww] xd)
               = Ok (Tensor [n; ic / 4; hh; ww] d)).
  { unfold Inception_branch_4. rewrite max_pool2d_fn_same by lia. simpl.
    rewrite E6. eexists. reflexivity. }
  destruct B1 as [d1 B1], B2 as [d2 B2], B3 as [d3 B3], B4 as [d4 B4].
  exists d1, d2, d3, d4. repeat split; try assumption.
  unfold Inception_spec. rewrite B1, B2, B3, B4. simpl rbind.
  apply (cat_fn_channels n hh ww
           [(3 * (ic / 4), d2); ((3 * (ic / 4)) / 2, d3); (ic / 4, d4)]
           (ic / 2) d1).
Qed.

Lemma SqueezeAndExcite_spec_shape h ic ds self n hh ww xd :
  SqueezeAndExcite_layers h ic ds self ->
  1 <= n ->
  let x := Tensor [n; ic; hh; ww] xd in
  exists s gate y : tensor,
    global_avg_pool x = Ok s /\ size s = [n; ic]
    /\ excitation h self s = Ok gate /\ size gate = [n; ic]
    /\ scale_channels x gate = Ok y /\ size y = [n; ic; hh; ww]
    /\ SqueezeAndExcite_spec h self x
       = Ok (Tensor [n; 2 * ic; hh; ww] (App (cat 1) [xd; data y])).
Proof.
  intros (L1 & L2) Hn x. subst x.
  pose proof (global_avg_pool_shape n ic hh ww xd Hn) as G.
  destruct (layer_fn_linear h _ n _ _
              (App (view [n; -1]) [App (adaptive_avg_pool2d 1 1) [xd]]) L1)
    as (w1 & c1 & E1).
  destruct (layer_fn_linear h _ n _ _
              (App relu [App linear
                 [App (view [n; -1]) [App (adaptive_avg_pool2d 1 1) [xd]];
                  w1; c1]]) L2)
    as (w2 & c2 & E2).
  assert (X : exists d,
             excitation h self
               (Tensor [n; ic]
                  (App (view [n; -1]) [App (adaptive_avg_pool2d 1 1) [xd]]))
             = Ok (Tensor [n; ic] d)).
  { unfold excitation. rewrite E1. simpl. rewrite E2. eexists. reflexivity. }
  destruct X as [gd X].
  pose proof (scale_channels_shape n ic hh ww xd gd Hn) as Y.
  eexists _, _, _. split; [exact G |]. split; [reflexivity |].
  split; [exact X |]. split; [reflexivity |].
  split; [exact Y |]. split; [reflexivity |].
  unfold SqueezeAndExcite_spec. rewrite G. simpl rbind. rewrite X. simpl rbind.
  rewrite Y. simpl rbind.
  pose proof (cat_fn_channels n hh ww
                [(ic, App mul [xd; App (view [n; -1; 1; 1]) [gd]])] ic xd)
    as Hcat.
  simpl in Hcat. rewrite Hcat. simpl.
  replace (ic + ic) with (2 * ic) by lia. reflexivity.
Qed.

(** ** Constructed modules *)

Lemma construct_inv c h0 b h1 :
  construct c h0 = (Ok b, h1) ->
  (exists ic self,
      c = New_InceptionBlock ic /\ b = B_Inception self
      /\ InceptionBlock_init ic h0 = (Ok self, h1))
  \/ (exists ic ds self,
      c = New_SqueezeAndExciteBlock ic ds /\ b = B_SqueezeAndExcite self
      /\ SqueezeAndExciteBlock_init ic ds h0 = (Ok self, h1)).
Proof.
  intros H. pose proof (construct_Ok_builds _ _ _ _ H) as Hb.
  destruct c; try discriminate Hb; simpl in H;
    apply bind_Ok_inv in H as (m & h' & Hm & [= <- <-]); eauto 10.
Qed.

Lemma Inception_layers_mono h h' ic self :
  (forall b v, h !! b = Some v -> h' !! b = Some v) ->
  Inception_layers h ic self -> Inception_layers h' ic self.
Proof.
  intros Hext (C1 & C2 & C3 & C4 & C5 & C6).
  repeat split; eapply is_conv_mono; eassumption.
Qed.

Lemma SqueezeAndExcite_layers_mono h h' ic ds self :
  (forall b v, h !! b = Some v -> h' !! b = Some v) ->
  SqueezeAndExcite_layers h ic ds self ->
  SqueezeAndExcite_layers h' ic ds self.
Proof.
  intros Hext (L1 & L2). split; eapply is_linear_mono; eassumption.
Qed.

Lemma layer_fn_mono_fun h h' l :
  (forall b v, h !! b = Some v -> h' !! b = Some v) ->
  pure_layer h l -> layer_fn h' l = layer_fn h l.
Proof.
  intros Hext. destruct l; simpl; try tauto.
  all: intros [[w Hw] [b Hb]]; unfold layer_fn.
  all: now rewrite Hw, Hb, (Hext _ _ Hw), (Hext _ _ Hb).
Qed.

Lemma Inception_spec_mono h h' ic self x :
  (forall b v, h !! b = Some v -> h' !! b = Some v) ->
  Inception_layers h ic self ->
  Inception_spec h' self x = Inception_spec h self x.
Proof.
  intros Hext (C1 & C2 & C3 & C4 & C5 & C6).
  apply is_conv_pure in C1, C2, C3, C4, C5, C6.
  unfold Inception_spec, Inception_branch_1, Inception_branch_2,
    Inception_branch_3, Inception_branch_4.
  now rewrite !(layer_fn_mono_fun h h') by assumption.
Qed.

Lemma SqueezeAndExcite_spec_mono h h' ic ds self x :
  (forall b v, h !! b = Some v -> h' !! b = Some v) ->
  SqueezeAndExcite_layers h ic ds self ->
  SqueezeAndExcite_spec h' self x = SqueezeAndExcite_spec h self x.
Proof.
  intros Hext (L1 & L2). apply is_linear_pure in L1, L2.
  unfold SqueezeAndExcite_spec, excitation.
  now rewrite !(layer_fn_mono_fun h h') by assumption.
Qed.

Lemma Inception_runs h ic self x v :
  Inception_layers h ic self -> h !! x = Some v ->
  runs (InceptionBlock_forward self x) h (Inception_spec h self v).
Proof.
  intros (C1 & C2 & C3 & C4 & C5 & C6) Hx.
  apply InceptionBlock_forward_runs; eauto using is_conv_pure.
Qed.

Lemma SqueezeAndExcite_runs h ic ds self x v :
  SqueezeAndExcite_layers h ic ds self -> h !! x = Some v ->
  runs (SqueezeAndExciteBlock_forward self x) h
       (SqueezeAndExcite_spec h self v).
Proof.
  intros (L1 & L2) Hx.
  apply SqueezeAndExciteBlock_forward_runs; eauto using is_linear_pure.
Qed.

Lemma lookup_prefix (h h' : list tensor) :
  h `prefix_of` h' -> forall a t, h !! a = Some t -> h' !! a = Some t.
Proof. intros [l ->] a t. apply lookup_app_old. Qed.

Lemma grows_call_layer_conv h l co ci k s p a :
  is_conv h l co ci k s p -> grows (call_layer l a).
Proof. intros (c & wd & bd & -> & _). simpl. auto with grows. Qed.

Lemma grows_call_layer_linear h l i o a :
  is_linear h l i o -> grows (call_layer l a).
Proof. intros (c & wd & bd & -> & _). simpl. auto with grows. Qed.

(** What holds of a module once its constructor has returned it. *)
Section Constructed.
Variables (c : ctor) (b : block) (h0 h1 : list tensor).
Hypothesis Hc : construct c h0 = (Ok b, h1).

(** A call computes the value of the specification, in every later heap
    that still holds the parameters. *)
Lemma forward_runs h x v :
  (forall a t, h1 !! a = Some t -> h !! a = Some t) ->
  h !! x = Some v ->
  runs (forward b x) h (block_spec h1 b v).
Proof using Hc.
  intros Hext Hx.
  destruct (construct_inv _ _ _ _ Hc)
    as [(ic & self & -> & -> & Hi) | (ic & ds & self & -> & -> & Hi)]; simpl.
  - apply InceptionBlock_init_inv in Hi.
    rewrite <- (Inception_spec_mono h1 h ic) by assumption.
    eapply Inception_runs; [| eassumption].
    eapply Inception_layers_mono; eassumption.
  - apply SqueezeAndExciteBlock_init_inv in Hi as [_ Hi].
    rewrite <- (SqueezeAndExcite_spec_mono h1 h ic ds) by assumption.
    eapply SqueezeAndExcite_runs; [| eassumption].
    eapply SqueezeAndExcite_layers_mono; eassumption.
Qed.

(** A call only adds objects to the heap. *)
Lemma grows_forward x : grows (forward b x).
Proof using Hc.
  destruct (construct_inv _ _ _ _ Hc)
    as [(ic & self & -> & -> & Hi) | (ic & ds & self & -> & -> & Hi)]; simpl.
  - apply InceptionBlock_init_inv in Hi as (C1 & C2 & C3 & C4 & C5 & C6).
    unfold InceptionBlock_forward, F_relu, F_max_pool2d, torch_cat.
    repeat (apply grows_bind; [| intros ?]);
      eauto using grows_call_layer_conv with grows.
  - apply SqueezeAndExciteBlock_init_inv in Hi as (_ & L1 & L2).
    unfold SqueezeAndExciteBlock_forward, F_adaptive_avg_pool2d, F_relu,
      F_sigmoid, tensor_view, tensor_mul, torch_cat.
    repeat (apply grows_bind; [| intros ?]);
      eauto using grows_call_layer_linear with grows.
Qed.

(** The value of the specification, when it is an exception, is one of
    the library's. *)
Lemma torch_res_block_spec v : torch_res (block_spec h1 b v).
Proof using Hc.
  destruct (construct_inv _ _ _ _ Hc)
    as [(ic & self & -> & -> & Hi) | (ic & ds & self & -> & -> & Hi)]; simpl.
  - apply InceptionBlock_init_inv in Hi as (C1 & C2 & C3 & C4 & C5 & C6).
    apply torch_res_Inception_spec; eauto using is_conv_pure.
  - apply SqueezeAndExciteBlock_init_inv in Hi as (_ & L1 & L2).
    apply torch_res_SqueezeAndExcite_spec; eauto using is_linear_pure.
Qed.
End Constructed.

Lemma grows_construct c : builds c = true -> grows (construct c).
Proof.
  destruct c; try discriminate; intros _; simpl.
  - pose proof (grows_InceptionBlock_init in_channels). auto with grows.
  - pose proof (grows_SqueezeAndExciteBlock_init in_channels downsample).
    auto with grows.
Qed.

Lemma construct_raises c h e h' :
  builds c = true ->
  construct c h = (Raise e, h') ->
  raised_by_torch e = true
  \/ (e = ZeroDivisionError
      /\ exists ic, c = New_SqueezeAndExciteBlock ic 0).
Proof.
  destruct c; try discriminate; intros _ H; simpl in H.
  - apply bind_inv in H as [(? & ? & _ & H) | (? & H & [= ->])];
      [discriminate H |].
    left. eapply InceptionBlock_init_raises; eassumption.
  - apply bind_inv in H as [(? & ? & _ & H) | (? & H & [= ->])];
      [discriminate H |].
    apply SqueezeAndExciteBlock_init_raises in H as [H | [-> ->]]; eauto.
Qed.

Lemma observed_Raise r e : observed r = Raise e -> r = Raise e.
Proof. destruct r; simpl; congruence. Qed.

(** * The claims *)

(** C1: constructing a block with its channel counts succeeds and calling
    it returns a tensor.  On the code this fails for three of the five
    classes: for every choice of arguments the constructors of
    ResidualBlock, DenseBlock and ConvBottleneck raise.  With the default
    arguments the exceptions are NameError for [depthwise] (the parameter
    is spelled [depth_wise]) and for [BottleneckBlock] (the class is
    called [ConvBottleneck]). *)
Theorem three_constructors_raise :
  (forall i o d b h, is_ok (construct (New_ResidualBlock i o d b) h).1 = false)
  /\ (forall i d b h, is_ok (construct (New_DenseBlock i d b) h).1 = false)
  /\ (forall i s d h, is_ok (construct (New_ConvBottleneck i s d) h).1 = false)
  /\ (construct (New_ResidualBlock 3 8 true false) []).1
     = Raise (NameError "depthwise")
  /\ (construct (New_DenseBlock 3 true false) []).1
     = Raise (NameError "depthwise")
  /\ (construct (New_ConvBottleneck 8 2 false) []).1
     = Raise (NameError "BottleneckBlock").
Proof.
  assert (K : forall c h, builds c = false -> is_ok (construct c h).1 = false).
  { intros c h Hc. destruct (construct c h) as [[b|e] h'] eqn:E; [| reflexivity].
    apply construct_Ok_builds in E. congruence. }
  repeat split; intros; now apply K.
Qed.

(** C2: ResidualBlock.forward returns relu(mainbranch(x) + skip(x)) with
    out_channels channels.  On the code no ResidualBlock can be built, so
    building one and calling it raises whatever the arguments and the
    input; for in_channels 3, out_channels 8 and a batch of size
    (1, 3, 8, 8) the exception is NameError for [depthwise]. *)
Theorem ResidualBlock_call_raises :
  (forall i o d b x h,
      is_ok (build_and_call (New_ResidualBlock i o d b) x h).1 = false)
  /\ outcome (build_and_call (New_ResidualBlock 3 8 true false) 0%nat
                [Tensor [1; 3; 8; 8] (Var "x")])
     = Raise (NameError "depthwise")
  /\ outcome (build_and_call (New_ResidualBlock 3 8 true true) 0%nat
                [Tensor [1; 3; 8; 8] (Var "x")])
     = Raise (AttributeError "torch.nn" "ReLu").
Proof.
  repeat split.
  intros i o d b x h. unfold build_and_call, bind.
  destruct (construct (New_ResidualBlock i o d b) h) as [[m|e] h'] eqn:E;
    [| reflexivity].
  now apply construct_Ok_builds in E.
Qed.

(** C3: DenseBlock.forward returns regularise(cat(x, dense(x))) with
    2 * in_channels channels.  On the code no DenseBlock can be built, so
    building one and calling it raises whatever the arguments and the
    input; for in_channels 4 and a batch of size (1, 4, 8, 8) the
    exception is NameError for [depthwise]. *)
Theorem DenseBlock_call_raises :
  (forall i d b x h,
      is_ok (build_and_call (New_DenseBlock i d b) x h).1 = false)
  /\ outcome (build_and_call (New_DenseBlock 4 true false) 0%nat
                [Tensor [1; 4; 8; 8] (Var "x")])
     = Raise (NameError "depthwise")
  /\ outcome (build_and_call (New_DenseBlock 4 true true) 0%nat
                [Tensor [1; 4; 8; 8] (Var "x")])
     = Raise (AttributeError "torch.nn" "ReLu").
Proof.
  repeat split.
  intros i d b x h. unfold build_and_call, bind.
  destruct (construct (New_DenseBlock i d b) h) as [[m|e] h'] eqn:E;
    [| reflexivity].
  now apply construct_Ok_builds in E.
Qed.

(** C4, as stated, fails in two ways.  An inception block for 3 channels,
    called on a batch of size (1, 3, 8, 8), does not return a tensor with
    3//2 + 3*(3//4) + (3*(3//4))//2 + 3//4 = 1 channel: its second branch
    asks the library for a convolution with 3 // 4 = 0 output channels,
    which the library rejects; so it is for 0, 1 and 2 channels.  And an
    inception block for 8 channels, called on a 4-D tensor with 8 channels
    of size (1, 8, 0, 5) or (1, 8, 5, 0), an image without rows or without
    columns, returns no tensor either: the 1x1 kernel of the first
    convolution does not fit in it. *)
Lemma InceptionBlock_rejected_inputs :
  (Inception_out_channels 3 = 1
   /\ outcome (build_and_call (New_InceptionBlock 3) 0%nat
                 [Tensor [1; 3; 8; 8] (Var "x")])
      = Raise (runtime_error
                 "expected weight to be at least groups at dimension 0"))
  /\ is_ok (outcome (build_and_call (New_InceptionBlock 2) 0%nat
                       [Tensor [1; 2; 8; 8] (Var "x")])) = false
  /\ is_ok (outcome (build_and_call (New_InceptionBlock 1) 0%nat
                       [Tensor [1; 1; 8; 8] (Var "x")])) = false
  /\ is_ok (outcome (build_and_call (New_InceptionBlock 0) 0%nat
                       [Tensor [1; 0; 8; 8] (Var "x")])) = false
  /\ outcome (build_and_call (New_InceptionBlock 8) 0%nat
                [Tensor [1; 8; 0; 5] (Var "x")])
     = Raise (runtime_error
                "Kernel size can't be greater than actual input size")
  /\ outcome (build_and_call (New_InceptionBlock 8) 0%nat
                [Tensor [1; 8; 5; 0] (Var "x")])
     = Raise (runtime_error
                "Kernel size can't be greater than actual input size").
Proof. repeat split. Qed.

(** C4, amended: for in_channels >= 4 and every 4-D input with
    in_channels channels and a height and a width of at least 1, the
    forward pass of a constructed InceptionBlock returns the concatenation
    along the channels of its four branch outputs, which have
    in_channels//2, 3*(in_channels//4), (3*(in_channels//4))//2 and
    in_channels//4 channels; the output has their sum as channel count and
    the batch size, height and width of the input. *)
Theorem InceptionBlock_forward_concat ic h0 self h1 h x n hh ww xd :
  InceptionBlock_init ic h0 = (Ok self, h1) ->
  (forall a t, h1 !! a = Some t -> h !! a = Some t) ->
  h !! x = Some (Tensor [n; ic; hh; ww] xd) ->
  4 <= ic -> 1 <= hh -> 1 <= ww ->
  exists b1 b2 b3 b4 : term,
    Inception_branch_1 h self (Tensor [n; ic; hh; ww] xd)
    = Ok (Tensor [n; ic / 2; hh; ww] b1)
    /\ Inception_branch_2 h self (Tensor [n; ic; hh; ww] xd)
       = Ok (Tensor [n; 3 * (ic / 4); hh; ww] b2)
    /\ Inception_branch_3 h self (Tensor [n; ic; hh; ww] xd)
       = Ok (Tensor [n; (3 * (ic / 4)) / 2; hh; ww] b3)
    /\ Inception_branch_4 h self (Tensor [n; ic; hh; ww] xd)
       = Ok (Tensor [n; ic / 4; hh; ww] b4)
    /\ outcome (InceptionBlock_forward self x h)
       = Ok (Some (Tensor
                     [n; ic / 2 + 3 * (ic / 4) + (3 * (ic / 4)) / 2 + ic / 4;
                      hh; ww]
                     (App (cat 1) [b1; b2; b3; b4]))).
Proof.
  intros Hi Hext Hx Hic Hh Hw.
  apply InceptionBlock_init_inv in Hi.
  apply (Inception_layers_mono h1 h) in Hi; [| assumption].
  destruct (Inception_spec_shape h ic self n hh ww xd Hi Hic Hh Hw)
    as (b1 & b2 & b3 & b4 & B1 & B2 & B3 & B4 & S).
  exists b1, b2, b3, b4. repeat split; try assumption.
  destruct (Inception_runs h ic self x _ Hi Hx) as (l & _ & Ho).
  rewrite Ho, S. reflexivity.
Qed.

(** An inception block for 8 channels on a batch of size (2, 8, 5, 5). *)
Lemma InceptionBlock_forward_concat_witness :
  exists t,
    outcome (build_and_call (New_InceptionBlock 8) 0%nat
               [Tensor [2; 8; 5; 5] (Var "x")]) = Ok (Some t)
    /\ size t = [2; 15; 5; 5].
Proof.
  destruct (InceptionBlock_forward_concat 8 [Tensor [2; 8; 5; 5] (Var "x")]
              _ _ _ 0%nat 2 5 5 (Var "x")
              eq_refl (fun a t Ha => Ha) eq_refl
              ltac:(lia) ltac:(lia) ltac:(lia))
    as (b1 & b2 & b3 & b4 & _ & _ & _ & _ & Ho).
  eexists. split; [exact Ho | reflexivity].
Defined.

(** C5, as stated, fails: building a squeeze-and-excite block with
    downsample 0 raises ZeroDivisionError, which comes from the integer
    division of line 191 and not from the tensor library. *)
Lemma zero_division_not_from_torch :
  outcome (build_and_call (New_SqueezeAndExciteBlock 4 0) 0%nat
             [Tensor [1; 4; 8; 8] (Var "x")])
  = Raise ZeroDivisionError
  /\ raised_by_torch ZeroDivisionError = false.
Proof. split; reflexivity. Qed.

(** C5, amended: for InceptionBlock and SqueezeAndExciteBlock, whatever
    the constructor arguments and the input tensor, an exception raised
    while building the module and calling it comes from the tensor
    library, except for the ZeroDivisionError that
    SqueezeAndExciteBlock.__init__ raises when downsample is 0. *)
Theorem exceptions_of_working_blocks c x h v e h' :
  builds c = true ->
  h !! x = Some v ->
  build_and_call c x h = (Raise e, h') ->
  raised_by_torch e = true
  \/ (e = ZeroDivisionError
      /\ exists ic, c = New_SqueezeAndExciteBlock ic 0).
Proof.
  intros Hc Hx H. unfold build_and_call in H.
  apply bind_inv in H as [(b & h1 & Hb & H) | (e0 & H & [= ->])].
  - left.
    assert (Hx1 : h1 !! x = Some v).
    { eapply lookup_prefix; [| eassumption].
      eapply grows_elim; [apply grows_construct |]; eassumption. }
    destruct (forward_runs c b h h1 Hb h1 x v (fun a t Ha => Ha) Hx1)
      as (l & _ & Ho).
    unfold outcome in Ho. rewrite H in Ho. simpl in Ho.
    symmetry in Ho. apply observed_Raise in Ho.
    eapply (torch_res_block_spec c b h h1); eassumption.
  - eapply construct_raises; eassumption.
Qed.

(** A squeeze-and-excite block for 8 channels called on 3 channels. *)
Lemma exceptions_of_working_blocks_witness :
  raised_by_torch
    (runtime_error "mat1 and mat2 shapes cannot be multiplied") = true
  \/ (runtime_error "mat1 and mat2 shapes cannot be multiplied"
      = ZeroDivisionError
      /\ exists ic, New_SqueezeAndExciteBlock 8 2
                    = New_SqueezeAndExciteBlock ic 0).
Proof.
  apply (exceptions_of_working_blocks (New_SqueezeAndExciteBlock 8 2) 0%nat
           [Tensor [1; 3; 4; 4] (Var "x")] (Tensor [1; 3; 4; 4] (Var "x"))
           (runtime_error "mat1 and mat2 shapes cannot be multiplied")
           (build_and_call (New_SqueezeAndExciteBlock 8 2) 0%nat
              [Tensor [1; 3; 4; 4] (Var "x")]).2);
    reflexivity.
Defined.

(** C6: forward is a function of the input tensor and of the module's
    parameters: a call of a constructed module returns the value that the
    specification of the block gives for the value of the input (or
    raises as it does), so two calls of the same module on inputs of equal
    value have the same outcome, whether they start in different heaps
    that hold the module, or one in the heap the other one left.  (The
    modules that constructors return are the inception and the
    squeeze-and-excite blocks.) *)
Theorem forward_deterministic c h0 b h1 h h' x1 x2 v :
  construct c h0 = (Ok b, h1) ->
  (forall a t, h1 !! a = Some t -> h !! a = Some t) ->
  (forall a t, h1 !! a = Some t -> h' !! a = Some t) ->
  h !! x1 = Some v ->
  h' !! x2 = Some v ->
  builds c = true
  /\ outcome (forward b x1 h) = observed (block_spec h1 b v)
  /\ outcome (forward b x2 h') = outcome (forward b x1 h)
  /\ (forall x3,
        (forward b x1 h).2 !! x3 = Some v ->
        outcome (forward b x3 (forward b x1 h).2) = outcome (forward b x1 h)).
Proof.
  intros Hc Hext Hext' Hx1 Hx2.
  destruct (forward_runs c b h0 h1 Hc h x1 v Hext Hx1) as (l & Hl & Ho).
  destruct (forward_runs c b h0 h1 Hc h' x2 v Hext' Hx2) as (l' & _ & Ho').
  split; [eapply construct_Ok_builds; eassumption |].
  split; [assumption |]. split; [congruence |].
  intros x3 Hx3.
  assert (Hext3 : forall a t, h1 !! a = Some t ->
                              (forward b x1 h).2 !! a = Some t).
  { intros a t Ha. rewrite Hl. apply lookup_app_old. auto. }
  destruct (forward_runs c b h0 h1 Hc _ x3 v Hext3 Hx3) as (l3 & _ & Ho3).
  congruence.
Qed.

(** Two calls in a row of a squeeze-and-excite block. *)
Lemma forward_deterministic_witness :
  exists b h1,
    construct (New_SqueezeAndExciteBlock 8 2) [Tensor [2; 8; 5; 5] (Var "x")]
    = (Ok b, h1)
    /\ outcome (forward b 0%nat h1)
       = outcome (forward b 0%nat (forward b 0%nat h1).2).
Proof.
  eexists _, _. split; [reflexivity |].
  destruct (forward_deterministic
              (New_SqueezeAndExciteBlock 8 2) [Tensor [2; 8; 5; 5] (Var "x")]
              _ _ _ _ 0%nat 0%nat (Tensor [2; 8; 5; 5] (Var "x"))
              eq_refl (fun a t Ha => Ha) (fun a t Ha => Ha) eq_refl eq_refl)
    as (_ & _ & _ & H).
  symmetry. apply H. reflexivity.
Defined.

(** C7, as stated, fails for the forward passes of ResidualBlock,
    DenseBlock and ConvBottleneck.  They hand the input to the layers the
    module holds, and a BatchNorm2d layer, which is in training mode
    unless told otherwise, counts the batch and moves its running mean and
    variance in place.  Here the module holds one BatchNorm2d layer for 3
    channels, whose weight, bias, running mean, running variance and batch
    counter are cells 1 to 5 of the heap, and is called on the tensor of
    size (2, 3, 4, 4) in cell 0: each of the three forward passes returns
    a tensor and leaves another running mean and another batch counter
    than it found. *)
Lemma forward_moves_running_statistics :
  let x := Tensor [2; 3; 4; 4] (Var "x") in
  let bn := {| bn_num_features := 3; bn_training := true;
               bn_weight := 1%nat; bn_bias := 2%nat;
               bn_running_mean := 3%nat; bn_running_var := 4%nat;
               bn_num_batches_tracked := 5%nat |} in
  let h := [x; Tensor [3] (Fill 1); Tensor [3] (Fill 0); Tensor [3] (Fill 0);
            Tensor [3] (Fill 1); Tensor [] (Fill 0)] in
  let residual := ResidualBlock_forward
                    {| mainbranch := LSequential [LBatchNorm2d bn];
                       skip := LSequential [] |} 0%nat h in
  let bottleneck := ConvBottleneck_forward
                      {| conv_blocks := LSequential [LBatchNorm2d bn] |}
                      0%nat h in
  let dense_block := DenseBlock_forward
                       {| dense := LSequential [LBatchNorm2d bn];
                          regularise := LSequential [] |} 0%nat h in
  nn_new "BatchNorm2d" [3] [x] = (Ok (LBatchNorm2d bn), h)
  /\ h !! 3%nat = Some (Tensor [3] (Fill 0))
  /\ h !! 5%nat = Some (Tensor [] (Fill 0))
  /\ is_ok residual.1 = true
  /\ residual.2 !! 3%nat
     = Some (Tensor [3] (App (running_stat 1 10) [Fill 0; Var "x"]))
  /\ residual.2 !! 5%nat = Some (Tensor [] (App add [Fill 0; Fill 1]))
  /\ is_ok bottleneck.1 = true
  /\ bottleneck.2 !! 3%nat
     = Some (Tensor [3] (App (running_stat 1 10) [Fill 0; Var "x"]))
  /\ bottleneck.2 !! 5%nat = Some (Tensor [] (App add [Fill 0; Fill 1]))
  /\ is_ok dense_block.1 = true
  /\ dense_block.2 !! 3%nat
     = Some (Tensor [3] (App (running_stat 1 10) [Fill 0; Var "x"]))
  /\ dense_block.2 !! 5%nat = Some (Tensor [] (App add [Fill 0; Fill 1])).
Proof. repeat split. Qed.

(** C7, amended: the forward pass of every module that a constructor
    returns (these are the inception and the squeeze-and-excite blocks)
    changes no object that exists when it is called: after the call every
    tensor of the heap (the parameters of the module, the input, and any
    other) has the size and contents it had before; the call only adds new
    tensors. *)
Theorem forward_preserves_heap c h0 b h1 h x :
  construct c h0 = (Ok b, h1) ->
  builds c = true
  /\ h `prefix_of` (forward b x h).2
  /\ (forall a t, h !! a = Some t -> (forward b x h).2 !! a = Some t).
Proof.
  intros Hc. pose proof (grows_forward c b h0 h1 Hc x h) as Hg.
  split; [eapply construct_Ok_builds; eassumption |].
  split; [assumption | now apply lookup_prefix].
Qed.

(** A call of an inception block for 8 channels. *)
Lemma forward_preserves_heap_witness :
  exists b h1,
    construct (New_InceptionBlock 8) [Tensor [2; 8; 5; 5] (Var "x")]
    = (Ok b, h1)
    /\ h1 `prefix_of` (forward b 0%nat h1).2
    /\ (forward b 0%nat h1).2 !! 0%nat = Some (Tensor [2; 8; 5; 5] (Var "x")).
Proof.
  eexists _, _. split; [reflexivity |].
  destruct (forward_preserves_heap
              (New_InceptionBlock 8) [Tensor [2; 8; 5; 5] (Var "x")]
              _ _ (construct (New_InceptionBlock 8)
                     [Tensor [2; 8; 5; 5] (Var "x")]).2 0%nat eq_refl)
    as (_ & Hp & Hl).
  split; [exact Hp | apply Hl; reflexivity].
Defined.

(** C8, as stated, fails on an empty batch: a squeeze-and-excite block
    for 8 channels called on a 4-D tensor of size (0, 8, 5, 5) returns no
    tensor.  The pooling gives a tensor of size (0, 8, 1, 1), and
    [output.view(output.size(0), -1)] on line 198 asks the library to
    infer a dimension of a tensor without elements from a first dimension
    of 0, which the library rejects as ambiguous. *)
Lemma SqueezeAndExcite_empty_batch_rejected :
  [Tensor [0; 8; 5; 5] (Var "x")] !! 0%nat
  = Some (Tensor [0; 8; 5; 5] (Var "x"))
  /\ is_ok (SqueezeAndExciteBlock_init 8 2 [Tensor [0; 8; 5; 5] (Var "x")]).1
     = true
  /\ outcome (build_and_call (New_SqueezeAndExciteBlock 8 2) 0%nat
                [Tensor [0; 8; 5; 5] (Var "x")])
     = Raise (runtime_error
                "cannot reshape: the unspecified dimension size -1 is ambiguous").
Proof. repeat split. Qed.

(** C8, amended: for every 4-D input x with in_channels channels and a
    batch of at least one sample, the forward pass of a constructed
    SqueezeAndExciteBlock returns
    cat(x, x * sigmoid(fc2(relu(fc1(global_avg_pool(x)))))) along the
    channels: a tensor with 2 * in_channels channels and the batch size,
    height and width of x, whose contents are the concatenation of the
    contents of x with those of the gated x.  Nothing is asked of
    in_channels, the height or the width: they may be 0. *)
Theorem SqueezeAndExcite_forward_concat ic ds h0 self h1 h x n hh ww xd :
  SqueezeAndExciteBlock_init ic ds h0 = (Ok self, h1) ->
  (forall a t, h1 !! a = Some t -> h !! a = Some t) ->
  h !! x = Some (Tensor [n; ic; hh; ww] xd) ->
  1 <= n ->
  exists s gate y : tensor,
    global_avg_pool (Tensor [n; ic; hh; ww] xd) = Ok s
    /\ excitation h self s = Ok gate
    /\ scale_channels (Tensor [n; ic; hh; ww] xd) gate = Ok y
    /\ size y = [n; ic; hh; ww]
    /\ cat_fn 1 [Tensor [n; ic; hh; ww] xd; y]
       = Ok (Tensor [n; 2 * ic; hh; ww] (App (cat 1) [xd; data y]))
    /\ outcome (SqueezeAndExciteBlock_forward self x h)
       = Ok (Some (Tensor [n; 2 * ic; hh; ww] (App (cat 1) [xd; data y]))).
Proof.
  intros Hi Hext Hx Hn.
  apply SqueezeAndExciteBlock_init_inv in Hi as [_ Hi].
  apply (SqueezeAndExcite_layers_mono h1 h) in Hi; [| assumption].
  destruct (SqueezeAndExcite_spec_shape h ic ds self n hh ww xd Hi Hn)
    as (s & gate & y & G & Gs & X & Xs & Y & Ys & S).
  exists s, gate, y. repeat split; try assumption.
  - unfold SqueezeAndExcite_spec in S. rewrite G in S. simpl rbind in S.
    rewrite X in S. simpl rbind in S. rewrite Y in S. exact S.
  - destruct (SqueezeAndExcite_runs h ic ds self x _ Hi Hx) as (l & _ & Ho).
    rewrite Ho, S. reflexivity.
Qed.

(** A squeeze-and-excite block for 8 channels on a batch of size
    (2, 8, 5, 5). *)
Lemma SqueezeAndExcite_forward_concat_witness :
  exists t,
    outcome (build_and_call (New_SqueezeAndExciteBlock 8 2) 0%nat
               [Tensor [2; 8; 5; 5] (Var "x")]) = Ok (Some t)
    /\ size t = [2; 16; 5; 5].
Proof.
  destruct (SqueezeAndExcite_forward_concat 8 2
              [Tensor [2; 8; 5; 5] (Var "x")]
              _ _ _ 0%nat 2 5 5 (Var "x")
              eq_refl (fun a t Ha => Ha) eq_refl ltac:(lia))
    as (s & gate & y & _ & _ & _ & _ & _ & Ho).
  eexists. split; [exact Ho | reflexivity].
Defined.

Lemma ceil_half_unfold a : ceil_half a = - ((- a) / 2).
Proof. reflexivity. Qed.

Lemma ceil_half_even a : a mod 2 = 0 -> ceil_half a = a / 2.
Proof.
  intros Hm. rewrite ceil_half_unfold.
  pose proof (Z.div_mod a 2 ltac:(lia)) as Ha.
  pose proof (Z.div_mod (- a) 2 ltac:(lia)) as Hn.
  pose proof (Z.mod_pos_bound (- a) 2 ltac:(lia)). lia.
Qed.

Lemma ceil_half_odd a : a mod 2 <> 0 -> ceil_half a = a / 2 + 1.
Proof.
  intros Hm. rewrite ceil_half_unfold.
  pose proof (Z.div_mod a 2 ltac:(lia)) as Ha.
  pose proof (Z.div_mod (- a) 2 ltac:(lia)) as Hn.
  pose proof (Z.mod_pos_bound a 2 ltac:(lia)).
  pose proof (Z.mod_pos_bound (- a) 2 ltac:(lia)). lia.
Qed.

(** C9: the middle channel count of ResidualBlock is the ceiling of
    (in_channels + out_channels) / 2 and that of DenseBlock the ceiling of
    in_channels / 2, for all non-negative channel counts. *)
Theorem midle_channels_is_ceiling (in_channels out_channels : Z) :
  0 <= in_channels -> 0 <= out_channels ->
  ResidualBlock_midle_channels in_channels out_channels
    = ceil_half (in_channels + out_channels)
  /\ DenseBlock_midle_channels in_channels = ceil_half in_channels.
Proof.
  intros _ _. unfold ResidualBlock_midle_channels, DenseBlock_midle_channels.
  split; cbv zeta.
  - destruct (Z.eqb_spec ((in_channels + out_channels) mod 2) 0).
    + symmetry. now apply ceil_half_even.
    + symmetry. now apply ceil_half_odd.
  - destruct (Z.eqb_spec (in_channels mod 2) 0).
    + symmetry. now apply ceil_half_even.
    + symmetry. now apply ceil_half_odd.
Qed.

(** 3 and 8 channels. *)
Lemma midle_channels_is_ceiling_witness :
  ResidualBlock_midle_channels 3 8 = ceil_half (3 + 8)
  /\ DenseBlock_midle_channels 3 = ceil_half 3.
Proof. apply (midle_channels_is_ceiling 3 8); lia. Defined.

(** C10: SqueezeAndExciteBlock.__init__ raises ZeroDivisionError when
    downsample is 0; for in_channels >= 1 and downsample >= 1 the division
    is defined and the constructor returns a module with a layer from
    in_channels to in_channels // downsample features and one back; the
    body of ConvBottleneck.__init__ performs the same division without a
    guard. *)
Theorem downsample_division :
  (forall ic h,
      SqueezeAndExciteBlock_init ic 0 h = (Raise ZeroDivisionError, h))
  /\ (forall ic ds h,
        1 <= ic -> 1 <= ds ->
        py_floordiv ic ds = Ok (ic / ds)
        /\ exists self h',
             SqueezeAndExciteBlock_init ic ds h = (Ok self, h')
             /\ SqueezeAndExcite_layers h' ic ds self)
  /\ (forall ic dw h,
        ConvBottleneck_init_body ic 0 dw h = (Raise ZeroDivisionError, h)).
Proof.
  split; [reflexivity |]. split; [| reflexivity].
  intros ic ds h Hic Hds.
  assert (Hd : py_floordiv ic ds = Ok (ic / ds)).
  { unfold py_floordiv. now zbool. }
  split; [exact Hd |].
  assert (Hm : 0 <= ic / ds) by (apply Z.div_pos; lia).
  destruct (SqueezeAndExciteBlock_init ic ds h) as [[self|e] h'] eqn:E.
  - exists self, h'. split; [reflexivity |].
    now apply SqueezeAndExciteBlock_init_inv in E as [_ E].
  - exfalso. unfold SqueezeAndExciteBlock_init in E.
    apply bind_inv in E as [([] & h0 & H0 & E) | (e0 & H0 & _)];
      [| discriminate H0].
    injection H0 as <-.
    apply bind_inv in E as [(m & h1 & Hmm & E) | (e0 & Hmm & _)].
    2: { unfold lift in Hmm. rewrite Hd in Hmm. discriminate Hmm. }
    unfold lift in Hmm. rewrite Hd in Hmm. injection Hmm as <- <-.
    apply bind_inv in E as [(l1 & h1 & H1 & E) | (e0 & H1 & _)].
    2: { rewrite nn_new_Linear_run in H1. simpl in H1.
         revert H1. zbool. discriminate. }
    apply bind_inv in E as [(l2 & h2 & H2 & E) | (e0 & H2 & _)].
    2: { rewrite nn_new_Linear_run in H2. simpl in H2.
         revert H2. zbool. discriminate. }
    discriminate E.
Qed.

(** 8 channels, downsample 0 and 2. *)
Lemma downsample_division_witness :
  SqueezeAndExciteBlock_init 8 0 [] = (Raise ZeroDivisionError, [])
  /\ py_floordiv 8 2 = Ok 4
  /\ is_ok (SqueezeAndExciteBlock_init 8 2 []).1 = true
  /\ ConvBottleneck_init_body 8 0 false [] = (Raise ZeroDivisionError, []).
Proof.
  destruct downsample_division as (Z0 & Zpos & Zb).
  destruct (Zpos 8 2 [] ltac:(lia) ltac:(lia)) as (Hd & self & h' & E & _).
  split; [apply Z0 |]. split; [exact Hd |].
  split; [now rewrite E | apply Zb].
Defined.

(** * Further properties of the code *)

(** ** Running a sequence step by step *)

Lemma bind_Ok {A B} (m : M A) (f : A -> M B) h a h1 :
  m h = (Ok a, h1) -> bind m f h = f a h1.
Proof. unfold bind. now intros ->. Qed.

Lemma bind_Raise {A B} (m : M A) (f : A -> M B) h e h1 :
  m h = (Raise e, h1) -> bind m f h = (Raise e, h1).
Proof. unfold bind. now intros ->. Qed.

Lemma torch_full_run s c h :
  torch_full s c h =
  if forallb (fun d => 0 <=? d) s
  then (Ok (length h), h ++ [Tensor s (Fill c)])
  else (Raise (runtime_error
                 "Trying to create tensor with negative dimension"), h).
Proof.
  unfold torch_full, new_tensor, bind, lift, alloc, guard, rbind.
  now destruct (forallb _ s).
Qed.

Lemma nn_new_BatchNorm2d_Ok n h :
  0 <= n -> exists l h', nn_new "BatchNorm2d" [n] h = (Ok l, h').
Proof.
  intros Hn. unfold nn_new. unfold bind at 1. unfold lift at 1.
  change (nn_attr "BatchNorm2d") with (Ok C_BatchNorm2d).
  unfold nn_call, BatchNorm2d_new, bind.
  rewrite !torch_full_run. simpl forallb. zbool. simpl.
  rewrite !torch_full_run. simpl forallb. zbool. simpl.
  rewrite !torch_full_run. simpl forallb. zbool. simpl.
  rewrite !torch_full_run. simpl forallb. zbool. simpl.
  eauto.
Qed.

Lemma nn_new_Conv2d_Ok i o k s p h :
  0 <= i -> 0 <= o -> 0 <= k ->
  exists l h', nn_new "Conv2d" [i; o; k; s; p; 1] h = (Ok l, h').
Proof.
  intros Hi Ho Hk. rewrite nn_new_Conv2d_run. simpl forallb. zbool. simpl.
  eauto.
Qed.

Lemma append_new_Ok items name args h m h' :
  nn_new name args h = (Ok m, h') ->
  append_new (LModuleList items) name args h
  = (Ok (LModuleList (items ++ [m])), h').
Proof. intros H. unfold append_new. now rewrite (bind_Ok _ _ _ _ _ H). Qed.

Lemma append_new_ReLu cl h :
  append_new cl "ReLu" [] h = (Raise (AttributeError "torch.nn" "ReLu"), h).
Proof. reflexivity. Qed.

Lemma ResidualBlock_midle_channels_nonneg i o :
  0 <= i -> 0 <= o -> 0 <= ResidualBlock_midle_channels i o.
Proof.
  intros Hi Ho. unfold ResidualBlock_midle_channels. cbv zeta.
  assert (0 <= (i + o) / 2) by (apply Z.div_pos; lia).
  destruct (_ =? 0); lia.
Qed.

Lemma DenseBlock_midle_channels_nonneg i :
  0 <= i -> 0 <= DenseBlock_midle_channels i.
Proof.
  intros Hi. unfold DenseBlock_midle_channels. cbv zeta.
  assert (0 <= i / 2) by (apply Z.div_pos; lia).
  destruct (_ =? 0); lia.
Qed.

Lemma nn_new_Conv2d_params i o k s p h :
  0 <= i -> 0 <= o -> 0 <= k ->
  exists l w b,
    nn_new "Conv2d" [i; o; k; s; p; 1] h
    = (Ok l, h ++ [Tensor [o; i; k; k] w; Tensor [o] b]).
Proof.
  intros Hi Ho Hk. rewrite nn_new_Conv2d_run. simpl forallb. zbool. simpl.
  rewrite <- app_assoc. simpl app. eauto.
Qed.

Lemma nn_new_BatchNorm2d_params n h :
  0 <= n ->
  exists l,
    nn_new "BatchNorm2d" [n] h
    = (Ok l, h ++ [Tensor [n] (Fill 1); Tensor [n] (Fill 0);
                   Tensor [n] (Fill 0); Tensor [n] (Fill 1);
                   Tensor [] (Fill 0)]).
Proof.
  intros Hn. unfold nn_new. unfold bind at 1. unfold lift at 1.
  change (nn_attr "BatchNorm2d") with (Ok C_BatchNorm2d).
  unfold nn_call, BatchNorm2d_new, bind.
  rewrite !torch_full_run. simpl forallb. zbool. simpl.
  rewrite !torch_full_run. simpl forallb. zbool. simpl.
  rewrite !torch_full_run. simpl forallb. zbool. simpl.
  rewrite !torch_full_run. simpl forallb. zbool. simpl.
  unfold ret. rewrite <- !app_assoc. simpl app. eauto.
Qed.

(** The bottleneck prefix of lines 36-40 and 85-89 stops on [nn.ReLu],
    once the convolution and the batch normalisation before it have been
    created. *)
Lemma bottleneck_prefix_raises {A} i mid (k : layer * Z -> M A) h :
  0 <= i -> 0 <= mid ->
  exists params,
    bind (conv_layers <- append_new (LModuleList []) "Conv2d"
                           [i; mid; 1; 1; 0; 1] ;;
          conv_layers <- append_new conv_layers "BatchNorm2d" [mid] ;;
          conv_layers <- append_new conv_layers "ReLu" [] ;;
          ret (conv_layers, mid)) k h
    = (Raise (AttributeError "torch.nn" "ReLu"), h ++ params)
    /\ map size params
       = [ [mid; i; 1; 1]; [mid]; [mid]; [mid]; [mid]; [mid]; [] ].
Proof.
  intros Hi Hm.
  destruct (nn_new_Conv2d_params i mid 1 1 0 h Hi Hm ltac:(lia))
    as (l1 & w & b & E1).
  destruct (nn_new_BatchNorm2d_params mid
              (h ++ [Tensor [mid; i; 1; 1] w; Tensor [mid] b]) Hm)
    as (l2 & E2).
  exists ([Tensor [mid; i; 1; 1] w; Tensor [mid] b]
          ++ [Tensor [mid] (Fill 1); Tensor [mid] (Fill 0);
              Tensor [mid] (Fill 0); Tensor [mid] (Fill 1);
              Tensor [] (Fill 0)]).
  split; [| reflexivity].
  rewrite (app_assoc h). apply bind_Raise.
  rewrite (bind_Ok _ _ _ _ _ (append_new_Ok _ _ _ _ _ _ E1)).
  rewrite (bind_Ok _ _ _ _ _ (append_new_Ok _ _ _ _ _ _ E2)).
  reflexivity.
Qed.

(** X1: the constructors of ResidualBlock and DenseBlock, called with
    bottleneck false (the default), raise NameError for [depthwise] and
    leave the heap as it was, whatever the channel counts; called with
    bottleneck true and non-negative channel counts they raise
    AttributeError for [nn.ReLu] after the first convolution and batch
    normalisation have been created: the heap has grown by the weight and
    the bias of the convolution and by the weight, the bias, the running
    mean, the running variance and the batch counter of the
    normalisation, and nothing else has changed. *)
Theorem Residual_and_Dense_init_exceptions :
  (forall i o d h,
      ResidualBlock_init i o d false h = (Raise (NameError "depthwise"), h))
  /\ (forall i d h,
        DenseBlock_init i d false h = (Raise (NameError "depthwise"), h))
  /\ (forall i o d h,
        0 <= i -> 0 <= o ->
        let m := ResidualBlock_midle_channels i o in
        exists params,
          ResidualBlock_init i o d true h
          = (Raise (AttributeError "torch.nn" "ReLu"), h ++ params)
          /\ map size params = [ [m; i; 1; 1]; [m]; [m]; [m]; [m]; [m]; [] ])
  /\ (forall i d h,
        0 <= i ->
        let m := DenseBlock_midle_channels i in
        exists params,
          DenseBlock_init i d true h
          = (Raise (AttributeError "torch.nn" "ReLu"), h ++ params)
          /\ map size params = [ [m; i; 1; 1]; [m]; [m]; [m]; [m]; [m]; [] ]).
Proof.
  split; [reflexivity |]. split; [reflexivity |]. split.
  - intros i o d h Hi Ho m. unfold ResidualBlock_init.
    rewrite (bind_Ok _ _ h tt h) by reflexivity.
    rewrite (bind_Ok _ _ h (LModuleList []) h) by reflexivity.
    cbv beta iota zeta.
    match goal with
    | |- exists _, bind _ ?k h = _ /\ _ =>
        destruct (bottleneck_prefix_raises i m k h Hi
                    (ResidualBlock_midle_channels_nonneg i o Hi Ho))
          as (params & E & Hs)
    end.
    exists params. split; assumption.
  - intros i d h Hi m. unfold DenseBlock_init.
    rewrite (bind_Ok _ _ h tt h) by reflexivity.
    rewrite (bind_Ok _ _ h (LModuleList []) h) by reflexivity.
    cbv beta iota zeta.
    match goal with
    | |- exists _, bind _ ?k h = _ /\ _ =>
        destruct (bottleneck_prefix_raises i m k h Hi
                    (DenseBlock_midle_channels_nonneg i Hi))
          as (params & E & Hs)
    end.
    exists params. split; assumption.
Qed.

Lemma Residual_and_Dense_init_exceptions_witness :
  (exists params,
      ResidualBlock_init 3 8 true true []
      = (Raise (AttributeError "torch.nn" "ReLu"), [] ++ params)
      /\ map size params = [ [6; 3; 1; 1]; [6]; [6]; [6]; [6]; [6]; [] ])
  /\ (exists params,
        DenseBlock_init 4 true true []
        = (Raise (AttributeError "torch.nn" "ReLu"), [] ++ params)
        /\ map size params = [ [2; 4; 1; 1]; [2]; [2]; [2]; [2]; [2]; [] ]).
Proof.
  destruct Residual_and_Dense_init_exceptions as (_ & _ & R & D).
  split; [apply (R 3 8 true []); lia | apply (D 4 true []); lia].
Defined.

(** X2: the statements of ConvBottleneck.__init__ after line 122 cannot
    build a module either: for every choice of arguments they raise, and
    for in_channels >= 0 and downsample >= 1 the exception is
    AttributeError for [nn.ReLu] (line 128). *)
Theorem ConvBottleneck_body_never_builds :
  (forall ic ds dw h, is_ok (ConvBottleneck_init_body ic ds dw h).1 = false)
  /\ (forall ic ds dw h,
        0 <= ic -> 1 <= ds ->
        (ConvBottleneck_init_body ic ds dw h).1
        = Raise (AttributeError "torch.nn" "ReLu")).
Proof.
  split.
  - intros ic ds dw h.
    destruct (ConvBottleneck_init_body ic ds dw h) as [[m|e] h'] eqn:E;
      [| reflexivity].
    exfalso. unfold ConvBottleneck_init_body in E.
    apply bind_Ok_inv in E as (cl & ? & _ & E).
    apply bind_Ok_inv in E as (med & ? & _ & E).
    apply bind_Ok_inv in E as (? & ? & _ & E).
    apply bind_Ok_inv in E as (? & ? & _ & E).
    apply bind_Ok_inv in E as (? & ? & Hrelu & _).
    rewrite append_new_ReLu in Hrelu. discriminate Hrelu.
  - intros ic ds dw h Hic Hds. unfold ConvBottleneck_init_body.
    rewrite (bind_Ok _ _ h (LModuleList []) h) by reflexivity.
    assert (Hm : 0 <= ic / ds) by (apply Z.div_pos; lia).
    rewrite (bind_Ok _ _ h (ic / ds) h)
      by (unfold lift, py_floordiv; now zbool).
    destruct (nn_new_Conv2d_Ok ic (ic / ds) 1 1 0 h Hic Hm ltac:(lia))
      as (l1 & h1 & E1).
    destruct (nn_new_BatchNorm2d_Ok (ic / ds) h1 Hm) as (l2 & h2 & E2).
    rewrite (bind_Ok _ _ _ _ _ (append_new_Ok _ _ _ _ _ _ E1)).
    rewrite (bind_Ok _ _ _ _ _ (append_new_Ok _ _ _ _ _ _ E2)).
    reflexivity.
Qed.

Lemma ConvBottleneck_body_never_builds_witness :
  (ConvBottleneck_init_body 8 2 true []).1
  = Raise (AttributeError "torch.nn" "ReLu").
Proof.
  apply (proj2 ConvBottleneck_body_never_builds 8 2 true []); lia.
Defined.

(** ** What the two working constructors allocate *)

Lemma snoc2 {A} (h : list A) a b : (h ++ [a]) ++ [b] = h ++ [a; b].
Proof. now rewrite <- app_assoc. Qed.

(** X3: InceptionBlock.__init__ builds a module exactly when in_channels
    is not negative.  It then adds twelve tensors to the heap, the weight
    and the bias of its six convolutions in the order of the source, and
    changes nothing else; the layer called conv5x5 has a 1x1 kernel.  For
    a negative in_channels it raises the library's error and leaves the
    heap as it was. *)
Theorem InceptionBlock_init_parameters ic h :
  (0 <= ic ->
   exists self params,
     InceptionBlock_init ic h = (Ok self, h ++ params)
     /\ map size params
        = [ [ic / 2; ic; 1; 1]; [ic / 2];
            [ic / 4; ic; 1; 1]; [ic / 4];
            [3 * (ic / 4); ic / 4; 3; 3]; [3 * (ic / 4)];
            [ic / 4; ic; 1; 1]; [ic / 4];
            [(3 * (ic / 4)) / 2; ic / 4; 1; 1]; [(3 * (ic / 4)) / 2];
            [ic / 4; ic; 1; 1]; [ic / 4] ]
     /\ count_elements params
        = (ic / 2) * (ic + 1) + 3 * (ic / 4) * (ic + 1)
          + 3 * (ic / 4) * (9 * (ic / 4) + 1)
          + ((3 * (ic / 4)) / 2) * (ic / 4 + 1))
  /\ (ic < 0 ->
      InceptionBlock_init ic h
      = (Raise (runtime_error
                  "Trying to create tensor with negative dimension"), h)).
Proof.
  split.
  - intros Hic.
    assert (H2 : 0 <= ic / 2) by (apply Z.div_pos; lia).
    assert (H4 : 0 <= ic / 4) by (apply Z.div_pos; lia).
    assert (H3 : 0 <= (3 * (ic / 4)) / 2) by (apply Z.div_pos; lia).
    unfold InceptionBlock_init.
    rewrite (bind_Ok _ _ h tt h) by reflexivity.
    do 6 (erewrite bind_Ok;
          [| rewrite nn_new_Conv2d_run; simpl forallb; zbool; simpl;
             reflexivity]).
    unfold ret. rewrite !snoc2. rewrite <- !app_assoc. simpl app.
    eexists _, _. split; [reflexivity |]. split; [reflexivity |].
    unfold count_elements, numel. simpl. ring.
  - intros Hic.
    assert (H2 : ic / 2 < 0) by (apply Z.div_lt_upper_bound; lia).
    unfold InceptionBlock_init.
    rewrite (bind_Ok _ _ h tt h) by reflexivity.
    apply bind_Raise. rewrite nn_new_Conv2d_run. simpl forallb.
    rewrite (proj2 (Z.leb_gt 0 (ic / 2))) by lia. reflexivity.
Qed.

Lemma InceptionBlock_init_parameters_witness :
  exists self params,
    InceptionBlock_init 8 [] = (Ok self, [] ++ params)
    /\ count_elements params = 213.
Proof.
  destruct (proj1 (InceptionBlock_init_parameters 8 []) ltac:(lia))
    as (self & params & E & _ & C).
  exists self, params. split; [exact E | rewrite C; reflexivity].
Defined.

Lemma SqueezeAndExciteBlock_init_Ok ic ds h :
  ds <> 0 -> 0 <= ic -> 0 <= ic / ds ->
  exists self params,
    SqueezeAndExciteBlock_init ic ds h = (Ok self, h ++ params)
    /\ map size params = [ [ic / ds; ic]; [ic / ds]; [ic; ic / ds]; [ic] ]
    /\ count_elements params = 2 * ic * (ic / ds) + ic / ds + ic.
Proof.
  intros Hds Hic Hm.
  assert (Hd : lift (py_floordiv ic ds) h = (Ok (ic / ds), h)).
  { unfold lift, py_floordiv. now zbool. }
  unfold SqueezeAndExciteBlock_init.
  rewrite (bind_Ok _ _ h tt h) by reflexivity.
  rewrite (bind_Ok _ _ _ _ _ Hd).
  do 2 (erewrite bind_Ok;
        [| rewrite nn_new_Linear_run; simpl forallb; zbool; simpl;
           reflexivity]).
  unfold ret. rewrite !snoc2. rewrite <- !app_assoc. simpl app.
  eexists _, _. split; [reflexivity |]. split; [reflexivity |].
  unfold count_elements, numel. simpl. ring.
Qed.

(** X4: SqueezeAndExciteBlock.__init__ builds a module exactly when
    downsample is not 0 and neither in_channels nor
    in_channels // downsample is negative.  It then adds four tensors, the
    weight and bias of the two linear layers, 2 * in_channels * m + m +
    in_channels scalars for m = in_channels // downsample.  With a
    non-zero downsample and a negative count it raises the library's
    error and leaves the heap as it was. *)
Theorem SqueezeAndExciteBlock_init_parameters ic ds h :
  ds <> 0 ->
  (0 <= ic -> 0 <= ic / ds ->
   exists self params,
     SqueezeAndExciteBlock_init ic ds h = (Ok self, h ++ params)
     /\ map size params = [ [ic / ds; ic]; [ic / ds]; [ic; ic / ds]; [ic] ]
     /\ count_elements params = 2 * ic * (ic / ds) + ic / ds + ic)
  /\ (ic < 0 \/ ic / ds < 0 ->
      SqueezeAndExciteBlock_init ic ds h
      = (Raise (runtime_error
                  "Trying to create tensor with negative dimension"), h)).
Proof.
  intros Hds. split; [now apply SqueezeAndExciteBlock_init_Ok |].
  assert (Hd : lift (py_floordiv ic ds) h = (Ok (ic / ds), h)).
  { unfold lift, py_floordiv. now zbool. }
  intros Hneg. unfold SqueezeAndExciteBlock_init.
  rewrite (bind_Ok _ _ h tt h) by reflexivity.
  rewrite (bind_Ok _ _ _ _ _ Hd).
  apply bind_Raise. rewrite nn_new_Linear_run. simpl forallb.
  destruct (Z.leb_spec 0 (ic / ds)); [| reflexivity].
  rewrite (proj2 (Z.leb_gt 0 ic)) by lia. reflexivity.
Qed.

Lemma SqueezeAndExciteBlock_init_parameters_witness :
  (exists self params,
      SqueezeAndExciteBlock_init 8 2 [] = (Ok self, [] ++ params)
      /\ count_elements params = 76)
  /\ SqueezeAndExciteBlock_init 8 (-2) []
     = (Raise (runtime_error
                 "Trying to create tensor with negative dimension"), []).
Proof.
  split.
  - destruct (proj1 (SqueezeAndExciteBlock_init_parameters 8 2 []
                       ltac:(lia)) ltac:(lia) ltac:(vm_compute; discriminate))
      as (self & params & E & _ & C).
    exists self, params. split; [exact E | rewrite C; reflexivity].
  - apply (proj2 (SqueezeAndExciteBlock_init_parameters 8 (-2) []
                    ltac:(lia))).
    right. reflexivity.
Defined.

(** ** Calls that the library rejects *)

(** A convolution without output channels is rejected whatever its
    input. *)
Lemma layer_fn_conv_no_output h l ci k p x :
  is_conv h l 0 ci k 1 p -> is_ok (layer_fn h l x) = false.
Proof.
  intros (c & wd & bd & -> & Hs & Hp & Hg & Hw & Hb).
  simpl. rewrite Hw, Hb, Hs, Hg. unfold conv2d_fn, guard. simpl.
  destruct (0 <=? conv_padding c); reflexivity.
Qed.

Lemma rbind_not_ok {A B} (r : result A) (f : A -> result B) :
  is_ok r = false -> is_ok (rbind r f) = false.
Proof. now destruct r. Qed.

Lemma rbind_not_ok_later {A B} (r : result A) (f : A -> result B) :
  (forall a, is_ok (f a) = false) -> is_ok (rbind r f) = false.
Proof. intros H. destruct r; simpl; auto. Qed.

(** X5: for in_channels from 0 to 3 an InceptionBlock is built without
    complaint, but in_channels // 4 is 0 and every call of the module,
    on whatever tensor, raises an exception of the library: the
    convolutions of the second branch have no output channel. *)
Theorem InceptionBlock_small_always_raises ic h0 self h1 h x v :
  0 <= ic < 4 ->
  InceptionBlock_init ic h0 = (Ok self, h1) ->
  (forall a t, h1 !! a = Some t -> h !! a = Some t) ->
  h !! x = Some v ->
  exists e,
    outcome (InceptionBlock_forward self x h) = Raise e
    /\ raised_by_torch e = true.
Proof.
  intros Hic Hi Hext Hx.
  apply InceptionBlock_init_inv in Hi.
  apply (Inception_layers_mono h1 h) in Hi; [| assumption].
  destruct (Inception_runs h ic self x v Hi Hx) as (l & _ & Ho).
  assert (Hq : ic / 4 = 0) by (apply Z.div_small; lia).
  pose proof Hi as (C1 & C2 & C3 & C4 & C5 & C6).
  cbv zeta in C2. rewrite Hq in C2.
  assert (Hn : is_ok (Inception_spec h self v) = false).
  { unfold Inception_spec. apply rbind_not_ok_later. intros b1.
    apply rbind_not_ok. unfold Inception_branch_2.
    apply rbind_not_ok. eapply layer_fn_conv_no_output; eassumption. }
  destruct (Inception_spec h self v) as [t|e] eqn:E; [discriminate Hn |].
  exists e. split; [now rewrite Ho |].
  eapply torch_res_Inception_spec; eauto using is_conv_pure.
Qed.

Lemma InceptionBlock_small_always_raises_witness :
  exists e,
    outcome (build_and_call (New_InceptionBlock 3) 0%nat
               [Tensor [1; 3; 8; 8] (Var "x")]) = Raise e
    /\ raised_by_torch e = true.
Proof.
  exact (InceptionBlock_small_always_raises 3
           [Tensor [1; 3; 8; 8] (Var "x")] _ _ _ 0%nat
           (Tensor [1; 3; 8; 8] (Var "x"))
           ltac:(lia) eq_refl (fun a t Ha => Ha) eq_refl).
Defined.

(** A convolution called on a batch with another number of channels than
    its weight expects is rejected. *)
Lemma conv2d_fn_wrong_channels s p d n c hh ww xd co ci kh kw wd b :
  c <> ci ->
  is_ok (conv2d_fn s p d 1 (Tensor [n; c; hh; ww] xd)
           (Tensor [co; ci; kh; kw] wd) b) = false.
Proof.
  intros Hc. unfold conv2d_fn, guard. simpl.
  rewrite (proj2 (Z.eqb_neq c (ci * 1))) by lia.
  repeat (case_match; simpl; try reflexivity).
Qed.

(** X6: an InceptionBlock called on a batch whose number of channels is
    not in_channels raises an exception of the library, whatever
    in_channels is. *)
Theorem InceptionBlock_wrong_channels_raises ic h0 self h1 h x n c hh ww xd :
  InceptionBlock_init ic h0 = (Ok self, h1) ->
  (forall a t, h1 !! a = Some t -> h !! a = Some t) ->
  h !! x = Some (Tensor [n; c; hh; ww] xd) ->
  c <> ic ->
  exists e,
    outcome (InceptionBlock_forward self x h) = Raise e
    /\ raised_by_torch e = true.
Proof.
  intros Hi Hext Hx Hc.
  apply InceptionBlock_init_inv in Hi.
  apply (Inception_layers_mono h1 h) in Hi; [| assumption].
  destruct (Inception_runs h ic self x _ Hi Hx) as (l & _ & Ho).
  pose proof Hi as (C1 & _).
  assert (Hn : is_ok (Inception_spec h self (Tensor [n; c; hh; ww] xd))
               = false).
  { unfold Inception_spec, Inception_branch_1. do 2 apply rbind_not_ok.
    destruct C1 as (cv & wd & bd & -> & Hs & Hp & Hg & Hw & Hb).
    simpl. rewrite Hw, Hb, Hg. now apply conv2d_fn_wrong_channels. }
  destruct (Inception_spec h self _) as [t|e] eqn:E; [discriminate Hn |].
  exists e. split; [now rewrite Ho |].
  destruct Hi as (? & ? & ? & ? & ? & ?).
  eapply torch_res_Inception_spec; eauto using is_conv_pure.
Qed.

Lemma InceptionBlock_wrong_channels_raises_witness :
  exists e,
    outcome (build_and_call (New_InceptionBlock 8) 0%nat
               [Tensor [2; 3; 5; 5] (Var "x")]) = Raise e
    /\ raised_by_torch e = true.
Proof.
  exact (InceptionBlock_wrong_channels_raises 8
           [Tensor [2; 3; 5; 5] (Var "x")] _ _ _ 0%nat 2 3 5 5 (Var "x")
           eq_refl (fun a t Ha => Ha) eq_refl ltac:(lia)).
Defined.

(** X7: a SqueezeAndExciteBlock called on a non-empty 4-D batch whose
    number of channels is not in_channels raises the library's error for
    a matrix product of mismatched shapes: the pooling succeeds and the
    first linear layer rejects its input. *)
Theorem SqueezeAndExcite_wrong_channels_raises
    ic ds h0 self h1 h x n c hh ww xd :
  SqueezeAndExciteBlock_init ic ds h0 = (Ok self, h1) ->
  (forall a t, h1 !! a = Some t -> h !! a = Some t) ->
  h !! x = Some (Tensor [n; c; hh; ww] xd) ->
  1 <= n -> 1 <= c -> 1 <= hh -> 1 <= ww ->
  c <> ic ->
  outcome (SqueezeAndExciteBlock_forward self x h)
  = Raise (runtime_error "mat1 and mat2 shapes cannot be multiplied").
Proof.
  intros Hi Hext Hx Hn Hc Hh Hw Hne.
  apply SqueezeAndExciteBlock_init_inv in Hi as [_ Hi].
  apply (SqueezeAndExcite_layers_mono h1 h) in Hi; [| assumption].
  destruct (SqueezeAndExcite_runs h ic ds self x _ Hi Hx) as (l & _ & Ho).
  rewrite Ho. unfold SqueezeAndExcite_spec.
  rewrite global_avg_pool_shape by assumption. simpl rbind.
  unfold excitation.
  destruct Hi as ((l1 & wd & bd & E1 & Hw1 & Hb1) & _).
  rewrite E1. simpl. rewrite Hw1, Hb1. unfold linear_fn, guard. simpl.
  zbool. reflexivity.
Qed.

Lemma SqueezeAndExcite_wrong_channels_raises_witness :
  outcome (build_and_call (New_SqueezeAndExciteBlock 8 2) 0%nat
             [Tensor [2; 3; 5; 5] (Var "x")])
  = Raise (runtime_error "mat1 and mat2 shapes cannot be multiplied").
Proof.
  exact (SqueezeAndExcite_wrong_channels_raises 8 2
           [Tensor [2; 3; 5; 5] (Var "x")] _ _ _ 0%nat 2 3 5 5 (Var "x")
           eq_refl (fun a t Ha => Ha) eq_refl
           ltac:(lia) ltac:(lia) ltac:(lia) ltac:(lia) ltac:(lia)).
Defined.

(** ** Channel counts *)

Lemma Inception_out_channels_bounds ic :
  4 <= ic ->
  ic < Inception_out_channels ic < 2 * ic.
Proof.
  intros Hic. unfold Inception_out_channels.
  pose proof (Z.div_mod ic 2 ltac:(lia)).
  pose proof (Z.mod_pos_bound ic 2 ltac:(lia)).
  pose proof (Z.div_mod ic 4 ltac:(lia)).
  pose proof (Z.mod_pos_bound ic 4 ltac:(lia)).
  pose proof (Z.div_mod (3 * (ic / 4)) 2 ltac:(lia)).
  pose proof (Z.mod_pos_bound (3 * (ic / 4)) 2 ltac:(lia)).
  lia.
Qed.

Lemma Inception_out_channels_multiple_of_8 ic :
  ic mod 8 = 0 -> 8 * Inception_out_channels ic = 15 * ic.
Proof.
  intros H8. unfold Inception_out_channels.
  pose proof (Z.div_mod ic 8 ltac:(lia)) as H. rewrite H8 in H.
  replace ic with ((ic / 8) * 8) by lia.
  replace (ic / 8 * 8 / 4) with (2 * (ic / 8))
    by (replace (ic / 8 * 8) with ((2 * (ic / 8)) * 4) by lia;
        now rewrite Z.div_mul).
  replace (ic / 8 * 8 / 2) with (4 * (ic / 8))
    by (replace (ic / 8 * 8) with ((4 * (ic / 8)) * 2) by lia;
        now rewrite Z.div_mul).
  replace (3 * (2 * (ic / 8))) with ((3 * (ic / 8)) * 2) by lia.
  rewrite Z.div_mul by lia. lia.
Qed.

(** X8: the output of an InceptionBlock for in_channels >= 4 has more
    channels than its input and fewer than twice as many; when
    in_channels is a multiple of 8 it has exactly 15/8 of them. *)
Theorem InceptionBlock_widens ic h0 self h1 h x n hh ww xd :
  InceptionBlock_init ic h0 = (Ok self, h1) ->
  (forall a t, h1 !! a = Some t -> h !! a = Some t) ->
  h !! x = Some (Tensor [n; ic; hh; ww] xd) ->
  4 <= ic -> 1 <= hh -> 1 <= ww ->
  exists c d,
    outcome (InceptionBlock_forward self x h)
    = Ok (Some (Tensor [n; c; hh; ww] d))
    /\ ic < c < 2 * ic
    /\ (ic mod 8 = 0 -> 8 * c = 15 * ic).
Proof.
  intros Hi Hext Hx Hic Hh Hw.
  apply InceptionBlock_init_inv in Hi.
  apply (Inception_layers_mono h1 h) in Hi; [| assumption].
  destruct (Inception_spec_shape h ic self n hh ww xd Hi Hic Hh Hw)
    as (b1 & b2 & b3 & b4 & _ & _ & _ & _ & S).
  destruct (Inception_runs h ic self x _ Hi Hx) as (l & _ & Ho).
  exists (Inception_out_channels ic), (App (cat 1) [b1; b2; b3; b4]).
  split; [now rewrite Ho, S |].
  split; [now apply Inception_out_channels_bounds
         | apply Inception_out_channels_multiple_of_8].
Qed.

Lemma InceptionBlock_widens_witness :
  exists c d,
    outcome (build_and_call (New_InceptionBlock 8) 0%nat
               [Tensor [2; 8; 5; 5] (Var "x")])
    = Ok (Some (Tensor [2; c; 5; 5] d))
    /\ 8 < c < 16.
Proof.
  destruct (InceptionBlock_widens 8 [Tensor [2; 8; 5; 5] (Var "x")]
              _ _ _ 0%nat 2 5 5 (Var "x")
              eq_refl (fun a t Ha => Ha) eq_refl
              ltac:(lia) ltac:(lia) ltac:(lia))
    as (c & d & Ho & Hb & _).
  exists c, d. split; [exact Ho | exact Hb].
Defined.

(** X9: the width of the bottleneck of a ResidualBlock lies between its
    two channel counts, and that of a DenseBlock for in_channels >= 1 is
    at least 1 and at most in_channels: rounding up never leaves a
    bottleneck without channels. *)
Theorem midle_channels_bounds :
  (forall i o,
      Z.min i o <= ResidualBlock_midle_channels i o <= Z.max i o)
  /\ (forall i, 1 <= i -> 1 <= DenseBlock_midle_channels i <= i).
Proof.
  split.
  - intros i o. unfold ResidualBlock_midle_channels. cbv zeta.
    pose proof (Z.div_mod (i + o) 2 ltac:(lia)).
    pose proof (Z.mod_pos_bound (i + o) 2 ltac:(lia)).
    destruct (Z.eqb_spec ((i + o) mod 2) 0); lia.
  - intros i Hi. unfold DenseBlock_midle_channels. cbv zeta.
    pose proof (Z.div_mod i 2 ltac:(lia)).
    pose proof (Z.mod_pos_bound i 2 ltac:(lia)).
    destruct (Z.eqb_spec (i mod 2) 0); lia.
Qed.

Lemma midle_channels_bounds_witness :
  1 <= DenseBlock_midle_channels 1 <= 1.
Proof. apply (proj2 midle_channels_bounds 1). lia. Defined.

(** ** The result of a call is a new object *)

Lemma returns_new_lift_alloc (r : result tensor) :
  returns_new (t <- lift r ;; alloc t).
Proof.
  intros h a h'. unfold bind, lift, alloc. destruct r; [| discriminate].
  intros [= <- <-]. rewrite length_app. simpl. lia.
Qed.

Lemma returns_new_op1 f a : returns_new (op1 f a).
Proof.
  intros h y h'. unfold op1. unfold bind at 1. unfold load.
  destruct (h !! a); [| discriminate]. apply returns_new_lift_alloc.
Qed.

Lemma returns_new_op2 f a b : returns_new (op2 f a b).
Proof.
  intros h y h'. unfold op2. unfold bind at 1. unfold load at 1.
  destruct (h !! a); [| discriminate]. unfold bind at 1. unfold load.
  destruct (h !! b); [| discriminate]. apply returns_new_lift_alloc.
Qed.

Lemma returns_new_op3 f a b c : returns_new (op3 f a b c).
Proof.
  intros h y h'. unfold op3. unfold bind at 1. unfold load at 1.
  destruct (h !! a); [| discriminate]. unfold bind at 1. unfold load at 1.
  destruct (h !! b); [| discriminate]. unfold bind at 1. unfold load.
  destruct (h !! c); [| discriminate]. apply returns_new_lift_alloc.
Qed.

Lemma load_all_heap l h : (load_all l h).2 = h.
Proof.
  induction l as [|a l IH]; simpl; [reflexivity |].
  unfold bind at 1. unfold load. destruct (h !! a); [| reflexivity].
  unfold bind. destruct (load_all l h) as [[xs|e] h1]; simpl in *; now subst.
Qed.

Lemma returns_new_opl f l : returns_new (opl f l).
Proof.
  intros h y h'. unfold opl. unfold bind at 1.
  pose proof (load_all_heap l h) as E.
  destruct (load_all l h) as [[xs|e] h1]; [| discriminate].
  simpl in E. subst h1. apply returns_new_lift_alloc.
Qed.

Lemma returns_new_bind {A} (m : M A) (f : A -> M addr) :
  grows m -> (forall a, returns_new (f a)) -> returns_new (bind m f).
Proof.
  intros Hm Hf h y h' H.
  apply bind_Ok_inv in H as (a & h1 & H1 & H2).
  apply (grows_elim _ _ _ _ Hm) in H1. apply prefix_length in H1.
  apply Hf in H2. lia.
Qed.

Lemma returns_new_bind_ret (m : M addr) :
  returns_new m -> returns_new (bind m (fun a => ret a)).
Proof.
  intros Hm h y h' H.
  apply bind_Ok_inv in H as (a & h1 & H1 & [= <- <-]). now apply Hm.
Qed.

(** X10: when the call of a constructed module returns, the tensor it
    returns is an object that did not exist before the call: it is
    neither the input nor a parameter of the module, nor any other tensor
    alive before. *)
Theorem forward_returns_a_new_tensor c h0 b h1 h x y h' :
  construct c h0 = (Ok b, h1) ->
  forward b x h = (Ok y, h') ->
  h !! y = None /\ is_Some (h' !! y) /\ y <> x.
Proof.
  intros Hc Hf.
  assert (Hn : returns_new (forward b x)).
  { destruct (construct_inv _ _ _ _ Hc)
      as [(ic & self & -> & -> & Hi) | (ic & ds & self & -> & -> & Hi)];
      simpl.
    - apply InceptionBlock_init_inv in Hi as (C1 & C2 & C3 & C4 & C5 & C6).
      unfold InceptionBlock_forward, F_relu, F_max_pool2d, torch_cat.
      repeat first
        [ apply returns_new_bind_ret, returns_new_opl
        | apply returns_new_bind;
          [ eauto using grows_call_layer_conv with grows | intros ? ] ].
    - apply SqueezeAndExciteBlock_init_inv in Hi as (_ & L1 & L2).
      unfold SqueezeAndExciteBlock_forward, F_adaptive_avg_pool2d, F_relu,
        F_sigmoid, tensor_view, tensor_mul, torch_cat.
      repeat first
        [ apply returns_new_bind_ret, returns_new_opl
        | apply returns_new_bind;
          [ eauto using grows_call_layer_linear with grows | intros ? ] ]. }
  pose proof (Hn _ _ _ Hf) as [Hlo Hhi].
  assert (Hx : is_Some (h !! x)).
  { destruct (h !! x) eqn:E; [eauto |]. exfalso.
    destruct (construct_inv _ _ _ _ Hc)
      as [(ic & self & -> & -> & Hi) | (ic & ds & self & -> & -> & Hi)];
      simpl in Hf.
    - apply InceptionBlock_init_inv in Hi
        as ((cv & ? & ? & Hl & _) & _).
      unfold InceptionBlock_forward in Hf.
      apply bind_Ok_inv in Hf as (? & ? & Hf & _).
      rewrite Hl in Hf. simpl in Hf. unfold op3, bind, load in Hf.
      rewrite E in Hf. discriminate Hf.
    - unfold SqueezeAndExciteBlock_forward in Hf.
      apply bind_Ok_inv in Hf as (? & ? & Hf & _).
      unfold F_adaptive_avg_pool2d, op1, bind, load in Hf.
      rewrite E in Hf. discriminate Hf. }
  split; [apply lookup_ge_None; lia |].
  split; [apply lookup_lt_is_Some; lia |].
  apply lookup_lt_is_Some in Hx. lia.
Qed.

Lemma forward_returns_a_new_tensor_witness :
  exists y h',
    build_and_call (New_SqueezeAndExciteBlock 8 2) 0%nat
      [Tensor [2; 8; 5; 5] (Var "x")] = (Ok y, h')
    /\ y <> 0%nat.
Proof.
  eexists _, _. split; [vm_compute; reflexivity |].
  refine (proj2 (proj2
            (forward_returns_a_new_tensor
               (New_SqueezeAndExciteBlock 8 2)
               [Tensor [2; 8; 5; 5] (Var "x")] _ _
               (construct (New_SqueezeAndExciteBlock 8 2)
                  [Tensor [2; 8; 5; 5] (Var "x")]).2
               0%nat _ _ eq_refl _))).
  vm_compute. reflexivity.
Defined.

(** ** Stacking blocks *)

Lemma runs_Ok m h t :
  runs m h (Ok t) ->
  exists a, (m h).1 = Ok a /\ (m h).2 !! a = Some t.
Proof.
  intros (l & _ & Ho). unfold outcome in Ho.
  destruct (m h).1 as [a|e]; simpl in Ho; [| discriminate].
  injection Ho as Ho. eauto.
Qed.

(** X11: blocks compose when the channel counts agree: an inception
    block for in_channels >= 4 followed by a squeeze-and-excite block
    built for the inception block's output channels turns a non-empty
    batch of size (n, in_channels, h, w) into one of size
    (n, 2 * c, h, w), where c is the number of output channels of the
    inception block. *)
Theorem Inception_then_SqueezeAndExcite
    ic ds h0 inc h1 se h2 h x n hh ww xd :
  InceptionBlock_init ic h0 = (Ok inc, h1) ->
  SqueezeAndExciteBlock_init (Inception_out_channels ic) ds h1
  = (Ok se, h2) ->
  (forall a t, h2 !! a = Some t -> h !! a = Some t) ->
  h !! x = Some (Tensor [n; ic; hh; ww] xd) ->
  4 <= ic -> 1 <= n -> 1 <= hh -> 1 <= ww ->
  exists d,
    outcome ((y <- InceptionBlock_forward inc x ;;
              SqueezeAndExciteBlock_forward se y) h)
    = Ok (Some (Tensor [n; 2 * Inception_out_channels ic; hh; ww] d)).
Proof.
  intros Hi Hs Hext Hx Hic Hn Hh Hw.
  pose proof (grows_elim _ _ _ _
                (grows_SqueezeAndExciteBlock_init _ _) Hs) as H12.
  apply InceptionBlock_init_inv in Hi.
  apply (Inception_layers_mono h1 h) in Hi;
    [| intros a t Ha; apply Hext; eapply lookup_prefix; eassumption].
  apply SqueezeAndExciteBlock_init_inv in Hs as [_ Hs].
  apply (SqueezeAndExcite_layers_mono h2 h) in Hs; [| assumption].
  destruct (Inception_spec_shape h ic inc n hh ww xd Hi Hic Hh Hw)
    as (b1 & b2 & b3 & b4 & _ & _ & _ & _ & S).
  pose proof (Inception_out_channels_bounds ic Hic) as Hc.
  destruct (SqueezeAndExcite_spec_shape h (Inception_out_channels ic) ds se
              n hh ww (App (cat 1) [b1; b2; b3; b4]) Hs Hn)
    as (s & gate & y & _ & _ & _ & _ & _ & _ & S2).
  assert (R : runs (y <- InceptionBlock_forward inc x ;;
                    SqueezeAndExciteBlock_forward se y) h
                (rbind (Inception_spec h inc (Tensor [n; ic; hh; ww] xd))
                   (SqueezeAndExcite_spec h se))).
  { eapply runs_bind; [eapply Inception_runs; eassumption |].
    intros a t h' _ Hext' Ha.
    rewrite <- (SqueezeAndExcite_spec_mono h h' (Inception_out_channels ic) ds)
      by assumption.
    eapply SqueezeAndExcite_runs; [| eassumption].
    eapply SqueezeAndExcite_layers_mono; eassumption. }
  destruct R as (l & _ & Ho). rewrite Ho, S. simpl rbind. rewrite S2.
  eexists. reflexivity.
Qed.

Lemma Inception_then_SqueezeAndExcite_witness :
  exists d,
    outcome ((inc <- InceptionBlock_init 8 ;;
              se <- SqueezeAndExciteBlock_init 15 3 ;;
              y <- InceptionBlock_forward inc 0%nat ;;
              SqueezeAndExciteBlock_forward se y)
               [Tensor [2; 8; 5; 5] (Var "x")])
    = Ok (Some (Tensor [2; 30; 5; 5] d)).
Proof.
  exact (Inception_then_SqueezeAndExcite 8 3
           [Tensor [2; 8; 5; 5] (Var "x")] _ _ _ _ _ 0%nat 2 5 5 (Var "x")
           eq_refl eq_refl (fun a t Ha => Ha) eq_refl
           ltac:(lia) ltac:(lia) ltac:(lia) ltac:(lia)).
Defined.

(** ** Degenerate sizes *)

(** X12: a downsample larger than in_channels is accepted: in_channels //
    downsample is 0, the two linear layers go through zero features (the
    only numbers of the module are the in_channels entries of the second
    bias), and calls on a non-empty batch still return a tensor with
    2 * in_channels channels. *)
Theorem SqueezeAndExcite_zero_features ic ds h :
  1 <= ic < ds ->
  exists self params,
    SqueezeAndExciteBlock_init ic ds h = (Ok self, h ++ params)
    /\ map size params = [ [0; ic]; [0]; [ic; 0]; [ic] ]
    /\ count_elements params = ic
    /\ forall x n hh ww xd,
         (h ++ params) !! x = Some (Tensor [n; ic; hh; ww] xd) ->
         1 <= n -> 1 <= hh -> 1 <= ww ->
         exists d,
           outcome (SqueezeAndExciteBlock_forward self x (h ++ params))
           = Ok (Some (Tensor [n; 2 * ic; hh; ww] d)).
Proof.
  intros Hic.
  assert (Hq : ic / ds = 0) by (apply Z.div_small; lia).
  destruct (SqueezeAndExciteBlock_init_Ok ic ds h
              ltac:(lia) ltac:(lia) ltac:(lia))
    as (self & params & E & Hs & Hc).
  rewrite Hq in Hs, Hc.
  exists self, params. split; [exact E |]. split; [exact Hs |].
  split; [lia |].
  intros x n hh ww xd Hx Hn Hh Hw.
  apply SqueezeAndExciteBlock_init_inv in E as [_ L].
  destruct (SqueezeAndExcite_spec_shape _ ic ds self n hh ww xd L Hn)
    as (s & gate & y & _ & _ & _ & _ & _ & _ & S).
  destruct (SqueezeAndExcite_runs _ ic ds self x _ L Hx) as (l & _ & Ho).
  rewrite Ho, S. eexists. reflexivity.
Qed.

Lemma SqueezeAndExcite_zero_features_witness :
  exists self params,
    SqueezeAndExciteBlock_init 8 16 [Tensor [2; 8; 5; 5] (Var "x")]
    = (Ok self, [Tensor [2; 8; 5; 5] (Var "x")] ++ params)
    /\ count_elements params = 8.
Proof.
  destruct (SqueezeAndExcite_zero_features 8 16
              [Tensor [2; 8; 5; 5] (Var "x")] ltac:(lia))
    as (self & params & E & _ & C & _).
  exists self, params. split; [exact E | exact C].
Defined.

(** X13: a SqueezeAndExciteBlock cannot process an empty batch: for an
    input of size (0, c, h, w) with c, h, w >= 1 the pooling returns an
    empty tensor and [output.view(output.size(0), -1)] (line 198) is
    rejected by the library, because the dimension to infer is
    ambiguous. *)
Theorem SqueezeAndExcite_empty_batch_raises ic ds h0 self h1 h x c hh ww xd :
  SqueezeAndExciteBlock_init ic ds h0 = (Ok self, h1) ->
  (forall a t, h1 !! a = Some t -> h !! a = Some t) ->
  h !! x = Some (Tensor [0; c; hh; ww] xd) ->
  1 <= c -> 1 <= hh -> 1 <= ww ->
  outcome (SqueezeAndExciteBlock_forward self x h)
  = Raise (runtime_error
             "cannot reshape: the unspecified dimension size -1 is ambiguous").
Proof.
  intros Hi Hext Hx Hc Hh Hw.
  apply SqueezeAndExciteBlock_init_inv in Hi as [_ Hi].
  apply (SqueezeAndExcite_layers_mono h1 h) in Hi; [| assumption].
  destruct (SqueezeAndExcite_runs h ic ds self x _ Hi Hx) as (l & _ & Ho).
  rewrite Ho. unfold SqueezeAndExcite_spec, global_avg_pool,
    adaptive_avg_pool2d_fn, guard. reflexivity.
Qed.

Lemma SqueezeAndExcite_empty_batch_raises_witness :
  outcome (build_and_call (New_SqueezeAndExciteBlock 8 2) 0%nat
             [Tensor [0; 8; 5; 5] (Var "x")])
  = Raise (runtime_error
             "cannot reshape: the unspecified dimension size -1 is ambiguous").
Proof.
  exact (SqueezeAndExcite_empty_batch_raises 8 2
           [Tensor [0; 8; 5; 5] (Var "x")] _ _ _ 0%nat 8 5 5 (Var "x")
           eq_refl (fun a t Ha => Ha) eq_refl
           ltac:(lia) ltac:(lia) ltac:(lia)).
Defined.
